(** * AlphaSignal engine: indicator library, news sentiment and the
      news + technical combination strategies

    A shallow embedding of [strategies/indicators.py],
    [strategies/news_sentiment.py] and [strategies/combined_strategies.py],
    with the strategy interface of [strategies/base.py].

    Numbers.  Python floats are read as exact rationals ([Q]); [round(x, n)]
    is decimal rounding to the nearest multiple of [10^-n], ties to even.
    Infinities and NaN are not represented, so the statements below are
    about the arithmetic the code writes down, not about binary64 rounding.
    Equalities between numbers are stated up to [==].  Period lengths
    ([rsi_period], [lookback], [ma_period], [min_articles],
    [lookback_hours]) are natural numbers.

    Data.  Database rows and the [extra] dictionaries are finite maps from
    strings to JSON-like values; a [StrategyResult] is a record whose
    [signal_type] is a string, as in the code.

    Effects.  A call may raise, and the news strategy queries the
    [news_articles] table.  Both are explicit: computations live in a small
    monad that reads the world (clock, table, the interpreter's two string
    parsers), threads the list of queries made so far and returns either a
    value or the exception raised.  One call sees one clock reading. *)

From Stdlib Require Import QArith Qabs Qminmax Lqa ZArith Lia Ascii Sorted.
From stdpp Require Import gmap strings list.

Set Warnings "-register-all".
Local Open Scope Q_scope.

(** ** Python values and built-ins *)

Module Py.

Inductive exn : Set :=
| ZeroDivisionError
| ValueError
| TypeError
| IndexError.

(** The result of evaluating an expression: a value or a raised exception. *)
Inductive outcome (A : Type) : Type :=
| Ret (a : A)
| Raise (e : exn).
Arguments Ret {A} a.
Arguments Raise {A} e.

#[export] Instance outcome_ret : MRet outcome := fun _ a => Ret a.
#[export] Instance outcome_bind : MBind outcome := fun _ _ f o =>
  match o with
  | Ret a => f a
  | Raise e => Raise e
  end.

(** JSON-like values as they come back from the database rows and as they
    are stored in the [extra] dictionaries. *)
Inductive value : Type :=
| VNone
| VBool (b : bool)
| VInt (z : Z)
| VNum (x : Q)
| VStr (s : string)
| VList (l : list value)
| VDict (m : gmap string value).

(** [a < b] and [a > b] on floats. *)
Definition Qltb (x y : Q) : bool :=
  (Qnum x * QDen y <? Qnum y * QDen x)%Z.

(** Truth value of an object, as used by [or] and [if]. *)
Definition truthy (v : value) : bool :=
  match v with
  | VNone => false
  | VBool b => b
  | VInt z => negb (z =? 0)%Z
  | VNum x => negb (Qeq_bool x 0)
  | VStr s => negb (String.eqb s "")
  | VList l => match l with [] => false | _ => true end
  | VDict m => negb (bool_decide (dom m = ∅))
  end.

(** [a or b] *)
Definition py_or (a b : value) : value := if truthy a then a else b.

(** [d.get(k)] *)
Definition get (d : gmap string value) (k : string) : value :=
  default VNone (d !! k).

(** [float(v)].  The text of a [str] is handed to the interpreter's parser
    [parse]; [None] stands for its [ValueError]. *)
Definition float (parse : string -> option Q) (v : value) : outcome Q :=
  match v with
  | VNone => Raise TypeError
  | VBool b => Ret (if b then 1 else 0)
  | VInt z => Ret (inject_Z z)
  | VNum x => Ret x
  | VStr s => match parse s with Some x => Ret x | None => Raise ValueError end
  | VList _ => Raise TypeError
  | VDict _ => Raise TypeError
  end.

(** [max(a, b)] and [min(a, b)]: the first argument is kept unless the
    second is strictly larger (smaller). *)
Definition max2 (a b : Q) : Q := if Qltb a b then b else a.
Definition min2 (a b : Q) : Q := if Qltb b a then b else a.

(** [max(xs)] over a sequence; the empty sequence raises [ValueError]. *)
Definition max_of (xs : list Q) : outcome Q :=
  match xs with
  | [] => Raise ValueError
  | x :: rest => Ret (fold_left max2 rest x)
  end.

(** [sum(xs)] *)
Definition sum (xs : list Q) : Q := fold_left Qplus xs 0.

(** [x / y] on Python floats. *)
Definition div (x y : Q) : outcome Q :=
  if Qeq_bool y 0 then Raise ZeroDivisionError else Ret (x / y).

(** [xs[-n:]] for [n >= 0]; note that [xs[-0:]] is the whole list. *)
Definition last_n {A} (n : nat) (xs : list A) : list A :=
  match n with
  | O => xs
  | _ => drop (length xs - n) xs
  end.

(** [xs[:-1]] *)
Definition but_last {A} (xs : list A) : list A := take (length xs - 1) xs.

(** [xs[-1]] *)
Definition last_item {A} (xs : list A) : outcome A :=
  match last xs with
  | Some x => Ret x
  | None => Raise IndexError
  end.

(** Nearest integer, ties to the even neighbour. *)
Definition round_half_even (x : Q) : Z :=
  let n := Qnum x in
  let d := QDen x in
  let q := (n / d)%Z in
  let r := (n mod d)%Z in
  match (2 * r ?= d)%Z with
  | Lt => q
  | Gt => (q + 1)%Z
  | Eq => if Z.even q then q else (q + 1)%Z
  end.

(** [round(x, ndigits)] *)
Definition round (x : Q) (ndigits : nat) : Q :=
  let scale := inject_Z (10 ^ Z.of_nat ndigits) in
  Qred (inject_Z (round_half_even (x * scale)) / scale).

(** [s.replace("Z", "+00:00")] *)
Fixpoint replace_Z (s : string) : string :=
  match s with
  | EmptyString => EmptyString
  | String c rest =>
      if Ascii.eqb c "Z"%char
      then ("+00:00" +:+ replace_Z rest)%string
      else String c (replace_Z rest)
  end.

(** A [datetime]: its instant in seconds since the epoch, and whether it
    carries a UTC offset. *)
Inductive datetime : Type :=
| Aware (t : Q)
| Naive (t : Q).

(** [(a - b).total_seconds()]; mixing aware and naive raises [TypeError]. *)
Definition seconds_between (a b : datetime) : outcome Q :=
  match a, b with
  | Aware ta, Aware tb => Ret (ta - tb)
  | Naive ta, Naive tb => Ret (ta - tb)
  | _, _ => Raise TypeError
  end.

End Py.
Export Py.

(** ** [strategies/base.py] *)

Module Base.

Record Candle : Type := {
  time : string;
  open : Q;
  high : Q;
  low : Q;
  close : Q;
  volume : Q;
}.

Record StrategyResult : Type := {
  signal_type : string;
  confidence : Q;
  extra : gmap string value;
}.

(** A result stored as a value inside another dictionary. *)
Definition as_value (r : StrategyResult) : value :=
  VDict {[ "signal_type" := VStr (signal_type r);
           "confidence" := VNum (confidence r);
           "extra" := VDict (extra r) ]}.

End Base.
Export Base.

(** ** [strategies/indicators.py] *)

Module Indicators.

(** [np.diff(arr)] *)
Definition np_diff (arr : list Q) : list Q :=
  zip_with (fun nxt cur => nxt - cur) (tail arr) arr.

(** [xs.mean()] *)
Definition np_mean (xs : list Q) : Q :=
  Py.sum xs / inject_Z (Z.of_nat (length xs)).

(** One pass of the smoothing loop body, for index [i]. *)
Definition rsi_step (gains losses : list Q) (period : nat)
    (avg : Q * Q) (i : nat) : Q * Q :=
  let p := inject_Z (Z.of_nat period) in
  let p1 := inject_Z (Z.of_nat period - 1) in
  ((fst avg * p1 + nth i gains 0) / p,
   (snd avg * p1 + nth i losses 0) / p).

Definition compute_rsi (closes : list Q) (period : nat) : Q :=
  if (length closes <? period + 1)%nat then 50.0
  else
    let delta := np_diff closes in
    let gains := map (fun d => if Qltb 0 d then d else 0.0) delta in
    let losses := map (fun d => if Qltb d 0 then - d else 0.0) delta in
    let avg_gain := np_mean (take period gains) in
    let avg_loss := np_mean (take period losses) in
    let '(avg_gain, avg_loss) :=
      fold_left (rsi_step gains losses period)
                (seq period (length delta - period)) (avg_gain, avg_loss) in
    if Qeq_bool avg_loss 0 then 100.0
    else
      let rs := avg_gain / avg_loss in
      100 - (100 / (1 + rs)).

Definition simple_ma (values : list Q) (period : nat) : outcome Q :=
  if (length values <? period)%nat then
    match last values with
    | Some v => Ret v
    | None => Ret 0.0
    end
  else Py.div (Py.sum (last_n period values)) (inject_Z (Z.of_nat period)).

Definition highest_high (candles : list Candle) (lookback : nat) : outcome Q :=
  if (length candles <? lookback)%nat then max_of (map high candles)
  else max_of (map high (last_n lookback candles)).

End Indicators.
Export Indicators.

(** ** The outside world: clock, parsers and the news table *)

Module World.

(** One [select] on the [news_articles] table. *)
Record query : Type := {
  q_symbol : string;
  q_since : Q;
}.

Record Env : Type := {
  (** [float(s)] on a string; [None] is [ValueError] *)
  float_of_str : string -> option Q;
  (** [datetime.fromisoformat(s)]; [None] is [ValueError] *)
  fromisoformat : string -> option datetime;
  (** [datetime.now(timezone.utc)], in seconds since the epoch *)
  utcnow : Q;
  (** rows of [news_articles] for a symbol with [published_at >= since],
      newest first *)
  news_articles : string -> Q -> list (gmap string value);
}.

(** Computations that read the environment, log their queries and may
    raise. *)
Definition M (A : Type) : Type :=
  Env -> list query -> outcome A * list query.

#[export] Instance M_ret : MRet M := fun _ a _ log => (Ret a, log).
#[export] Instance M_bind : MBind M := fun _ _ f m env log =>
  match m env log with
  | (Ret a, log') => f a env log'
  | (Raise e, log') => (Raise e, log')
  end.

(** A computation that only reads the environment. *)
Definition reading {A} (f : Env -> outcome A) : M A :=
  fun env log => (f env, log).

(** A computation that touches nothing. *)
Definition pure {A} (o : outcome A) : M A := reading (fun _ => o).

(** [supabase.table("news_articles").select(...).execute()] *)
Definition select_news (symbol : string) (since : Q)
    : M (list (gmap string value)) :=
  fun env log =>
    (Ret (news_articles env symbol since),
     log ++ [{| q_symbol := symbol; q_since := since |}]).

End World.
Export World.

(** ** [strategies/news_sentiment.py] *)

Module NewsSentimentStrategy.

Definition code : string := "NEWS_SENTIMENT_MOMENTUM".

Record t : Type := {
  lookback_hours : nat;
  min_articles : nat;
}.

(** [NewsSentimentStrategy()] *)
Definition default : t := {| lookback_hours := 24; min_articles := 2 |}.

Definition _fetch_recent_news (self : t) (symbol : string)
    : M (list (gmap string value)) :=
  env ← reading Ret;
  let since := utcnow env - inject_Z (Z.of_nat (lookback_hours self)) * 3600 in
  select_news symbol since.

(** The body of the [for art in articles] loop: the article's sentiment
    and its weight. *)
Definition article_terms (env : Env) (now : datetime)
    (art : gmap string value) : outcome (Q * Q) :=
  s ← Py.float (float_of_str env) (py_or (get art "sentiment_score") (VNum 0.0));
  impact ← Py.float (float_of_str env) (py_or (get art "impact_score") (VNum 0.5));
  published_at ←
    match get art "published_at" with
    | VStr published_at_str =>
        match fromisoformat env (replace_Z published_at_str) with
        | Some d => Ret d
        | None => Raise ValueError
        end
    | _ => Ret now
    end;
  seconds ← seconds_between now published_at;
  let hours_ago := seconds / 3600.0 in
  inv ← Py.div 1.0 (1.0 + hours_ago / 8.0);
  let recency_weight := max2 0.1 inv in
  let w := impact * recency_weight in
  Ret (s, w).

Fixpoint aggregate_loop (env : Env) (now : datetime)
    (articles : list (gmap string value))
    (weighted_sum weight_total : Q) : outcome (Q * Q) :=
  match articles with
  | [] => Ret (weighted_sum, weight_total)
  | art :: rest =>
      sw ← article_terms env now art;
      aggregate_loop env now rest
        (weighted_sum + fst sw * snd sw) (weight_total + snd sw)
  end.

Definition _aggregate_sentiment (env : Env)
    (articles : list (gmap string value)) : outcome Q :=
  match articles with
  | [] => Ret 0.0
  | _ =>
      let now := Aware (utcnow env) in
      totals ← aggregate_loop env now articles 0.0 0.0;
      let '(weighted_sum, weight_total) := totals in
      Ret (if Qltb 0 weight_total then weighted_sum / weight_total else 0.0)
  end.

Definition generate_signal (self : t) (symbol : string)
    (candles : list Candle) : M StrategyResult :=
  articles ← _fetch_recent_news self symbol;
  if (length articles <? min_articles self)%nat then
    mret {| signal_type := "HOLD";
            confidence := 0.1;
            extra := {[ "reason" := VStr "not_enough_news";
                        "articles_count" := VInt (Z.of_nat (length articles));
                        "avg_sentiment" := VNum 0.0 ]} |}
  else
    avg_sentiment ← reading (fun env => _aggregate_sentiment env articles);
    let confidence := min2 1.0 (max2 0.0 (Qabs avg_sentiment)) in
    let signal_type := if Qltb 0 avg_sentiment then "BUY" else "HOLD" in
    mret {| signal_type := signal_type;
            confidence := Py.round confidence 3;
            extra := {[ "avg_sentiment" := VNum (Py.round avg_sentiment 3);
                        "articles_count" := VInt (Z.of_nat (length articles)) ]} |}.

End NewsSentimentStrategy.

(** ** [strategies/combined_strategies.py] *)

(** [float(news_res["extra"].get("avg_sentiment", 0.0))] *)
Definition news_avg_sentiment (news_res : StrategyResult) : M Q :=
  reading (fun env =>
    Py.float (float_of_str env)
      (default (VNum 0.0) (extra news_res !! "avg_sentiment"))).

Module NewsRSICombo.

Definition code : string := "NEWS_RSI_COMBO".

Record t : Type := {
  news_strategy : NewsSentimentStrategy.t;
  rsi_period : nat;
  oversold : Q;
}.

Definition generate_signal (self : t) (symbol : string)
    (candles : list Candle) : M StrategyResult :=
  if (length candles <? rsi_period self + 1)%nat then
    mret {| signal_type := "HOLD";
            confidence := 0.1;
            extra := {[ "reason" := VStr "not_enough_candles" ]} |}
  else
    let closes := map close candles in
    let rsi := compute_rsi closes (rsi_period self) in
    let tech_buy := Qltb rsi (oversold self) in
    news_res ← NewsSentimentStrategy.generate_signal (news_strategy self) symbol candles;
    avg_sentiment ← news_avg_sentiment news_res;
    let tech_score := if tech_buy then 1.0 else 0.0 in
    let news_score := max2 0.0 avg_sentiment in
    let tech_weight := 0.7 * (if tech_buy then 1 else 0.5) in
    let news_weight := 0.3 * max2 0.2 (confidence news_res) in
    let combined_score := tech_weight * tech_score + news_weight * news_score in
    let max_possible := tech_weight + news_weight in
    let normalized :=
      if Qltb 0 max_possible then combined_score / max_possible else 0.0 in
    let signal_type :=
      if tech_buy && Qle_bool 0.35 normalized then "BUY" else "HOLD" in
    let confidence := if String.eqb signal_type "BUY" then normalized else 0.2 in
    mret {| signal_type := signal_type;
            confidence := Py.round confidence 3;
            extra := {[ "normalized_score" := VNum (Py.round normalized 3);
                        "rsi" := VNum (Py.round rsi 2);
                        "news" := as_value news_res ]} |}.

End NewsRSICombo.

Module NewsBreakoutCombo.

Definition code : string := "NEWS_BREAKOUT_COMBO".

Record t : Type := {
  news_strategy : NewsSentimentStrategy.t;
  lookback : nat;
}.

Definition generate_signal (self : t) (symbol : string)
    (candles : list Candle) : M StrategyResult :=
  if (length candles <? lookback self + 1)%nat then
    mret {| signal_type := "HOLD";
            confidence := 0.1;
            extra := {[ "reason" := VStr "not_enough_candles" ]} |}
  else
    last ← pure (last_item candles);
    hh ← pure (highest_high (but_last candles) (lookback self));
    let close := close last in
    let tech_buy := Qltb hh close in
    news_res ← NewsSentimentStrategy.generate_signal (news_strategy self) symbol candles;
    avg_sentiment ← news_avg_sentiment news_res;
    let news_score := max2 0.0 avg_sentiment in
    let tech_score := if tech_buy then 1.0 else 0.0 in
    let tech_weight := 0.7 * (if tech_buy then 1 else 0.5) in
    let news_weight := 0.3 * max2 0.2 (confidence news_res) in
    let combined_score := tech_weight * tech_score + news_weight * news_score in
    let max_possible := tech_weight + news_weight in
    let normalized :=
      if Qltb 0 max_possible then combined_score / max_possible else 0.0 in
    let signal_type :=
      if tech_buy && Qle_bool 0.35 normalized then "BUY" else "HOLD" in
    let confidence := if String.eqb signal_type "BUY" then normalized else 0.2 in
    mret {| signal_type := signal_type;
            confidence := Py.round confidence 3;
            extra := {[ "normalized_score" := VNum (Py.round normalized 3);
                        "close" := VNum close;
                        "highest_high_lookback" := VNum hh;
                        "news" := as_value news_res ]} |}.

End NewsBreakoutCombo.

Module NewsTrendMA200Combo.

Definition code : string := "NEWS_TREND_MA200_COMBO".

Record t : Type := {
  news_strategy : NewsSentimentStrategy.t;
  ma_period : nat;
  pullback_pct : Q;
}.

Definition generate_signal (self : t) (symbol : string)
    (candles : list Candle) : M StrategyResult :=
  if (length candles <? ma_period self + 20)%nat then
    mret {| signal_type := "HOLD";
            confidence := 0.1;
            extra := {[ "reason" := VStr "not_enough_candles" ]} |}
  else
    let closes := map close candles in
    ma200 ← pure (simple_ma closes (ma_period self));
    last ← pure (last_item candles);
    let close := close last in
    let uptrend := Qltb ma200 close in
    let recent_closes := last_n 20 closes in
    recent_high ← pure (max_of recent_closes);
    let drop_from_high :=
      if Qltb 0 recent_high then (recent_high - close) / recent_high else 0.0 in
    let tech_buy :=
      uptrend && (Qle_bool (pullback_pct self * 0.5) drop_from_high
                  && Qle_bool drop_from_high (pullback_pct self)) in
    news_res ← NewsSentimentStrategy.generate_signal (news_strategy self) symbol candles;
    avg_sentiment ← news_avg_sentiment news_res;
    let news_score := max2 0.0 avg_sentiment in
    let tech_score := if tech_buy then 1.0 else 0.0 in
    let tech_weight := 0.7 * (if tech_buy then 1 else 0.5) in
    let news_weight := 0.3 * max2 0.2 (confidence news_res) in
    let combined_score := tech_weight * tech_score + news_weight * news_score in
    let max_possible := tech_weight + news_weight in
    let normalized :=
      if Qltb 0 max_possible then combined_score / max_possible else 0.0 in
    let signal_type :=
      if tech_buy && Qle_bool 0.35 normalized then "BUY" else "HOLD" in
    let confidence := if String.eqb signal_type "BUY" then normalized else 0.2 in
    mret {| signal_type := signal_type;
            confidence := Py.round confidence 3;
            extra := {[ "normalized_score" := VNum (Py.round normalized 3);
                        "ma200" := VNum (Py.round ma200 2);
                        "close" := VNum close;
                        "recent_high" := VNum recent_high;
                        "drop_from_high" := VNum (Py.round drop_from_high 3);
                        "news" := as_value news_res ]} |}.

End NewsTrendMA200Combo.

(** ** The strategies behind the common [generate_signal] interface *)

Inductive Combination : Type :=
| NewsRSI (self : NewsRSICombo.t)
| NewsBreakout (self : NewsBreakoutCombo.t)
| NewsTrendMA200 (self : NewsTrendMA200Combo.t).

Inductive Strategy : Type :=
| NewsSentiment (self : NewsSentimentStrategy.t)
| Combined (c : Combination).

(** [strat.generate_signal(symbol, candles)] *)
Definition generate_signal (strat : Strategy) (symbol : string)
    (candles : list Candle) : M StrategyResult :=
  match strat with
  | NewsSentiment self => NewsSentimentStrategy.generate_signal self symbol candles
  | Combined (NewsRSI self) => NewsRSICombo.generate_signal self symbol candles
  | Combined (NewsBreakout self) => NewsBreakoutCombo.generate_signal self symbol candles
  | Combined (NewsTrendMA200 self) => NewsTrendMA200Combo.generate_signal self symbol candles
  end.

Definition build_combined_strategies : list Combination :=
  let news := NewsSentimentStrategy.default in
  [ NewsRSI {| NewsRSICombo.news_strategy := news;
               NewsRSICombo.rsi_period := 14;
               NewsRSICombo.oversold := 30.0 |};
    NewsBreakout {| NewsBreakoutCombo.news_strategy := news;
                    NewsBreakoutCombo.lookback := 20 |};
    NewsTrendMA200 {| NewsTrendMA200Combo.news_strategy := news;
                      NewsTrendMA200Combo.ma_period := 200;
                      NewsTrendMA200Combo.pullback_pct := 0.05 |} ].

(** ** [run_strategies.py] *)

Definition normalize_signal_type (signal_type : string) : string :=
  if String.eqb signal_type "BUY" then "BUY" else "HOLD".

(** The news strategy a combination delegates to. *)
Definition news_of (c : Combination) : NewsSentimentStrategy.t :=
  match c with
  | NewsRSI self => NewsRSICombo.news_strategy self
  | NewsBreakout self => NewsBreakoutCombo.news_strategy self
  | NewsTrendMA200 self => NewsTrendMA200Combo.news_strategy self
  end.

(** The query [_fetch_recent_news] issues for a symbol. *)
Definition news_query (env : Env) (self : NewsSentimentStrategy.t)
    (symbol : string) : query :=
  {| q_symbol := symbol;
     q_since := utcnow env
       - inject_Z (Z.of_nat (NewsSentimentStrategy.lookback_hours self)) * 3600 |}.

(** The rows [_fetch_recent_news] gets back for a symbol. *)
Definition fetched (env : Env) (self : NewsSentimentStrategy.t)
    (symbol : string) : list (gmap string value) :=
  news_articles env symbol
    (utcnow env
     - inject_Z (Z.of_nat (NewsSentimentStrategy.lookback_hours self)) * 3600).

(** What the aggregation reads as an article's sentiment and impact. *)
Definition read_sentiment (env : Env) (art : gmap string value) : outcome Q :=
  Py.float (float_of_str env) (py_or (get art "sentiment_score") (VNum 0.0)).

Definition read_impact (env : Env) (art : gmap string value) : outcome Q :=
  Py.float (float_of_str env) (py_or (get art "impact_score") (VNum 0.5)).

(** The ranges of the data model: sentiment in [-1, 1], impact not
    negative.  An article on which the read itself fails is not restricted. *)
Definition within_data_model (env : Env) (art : gmap string value) : bool :=
  match read_sentiment env art with
  | Ret s => Qle_bool (-1) s && Qle_bool s 1
  | Raise _ => true
  end
  &&
  match read_impact env art with
  | Ret i => Qle_bool 0 i
  | Raise _ => true
  end.

(** A score field that is absent, [None] or a number. *)
Definition plain_score (v : value) : bool :=
  match v with
  | VNone | VInt _ | VNum _ => true
  | _ => false
  end.

(** Hours between the evaluation time and the article, as the loop
    computes them; [None] when the timestamp cannot be read. *)
Definition hours_ago_of (env : Env) (art : gmap string value) : option Q :=
  match get art "published_at" with
  | VStr str =>
      match fromisoformat env (replace_Z str) with
      | Some (Aware t) => Some ((utcnow env - t) / 3600.0)
      | _ => None
      end
  | _ => Some ((utcnow env - utcnow env) / 3600.0)
  end.

(** An article the aggregation can process: plain score fields, and a
    timestamp that is either not a string or an offset-aware ISO instant
    which does not lie exactly eight hours after the evaluation time. *)
Definition readable (env : Env) (art : gmap string value) : bool :=
  plain_score (get art "sentiment_score")
  && plain_score (get art "impact_score")
  && match hours_ago_of env art with
     | Some h => negb (Qeq_bool h (-8))
     | None => false
     end.

(** The value the three combination bodies bind to [normalized], as a
    function of the technical condition and the two fields read from the
    news result. *)
Definition normalized_of (tech_buy : bool) (avg_sentiment news_confidence : Q) : Q :=
  let tech_score := if tech_buy then 1.0 else 0.0 in
  let news_score := max2 0.0 avg_sentiment in
  let tech_weight := 0.7 * (if tech_buy then 1 else 0.5) in
  let news_weight := 0.3 * max2 0.2 news_confidence in
  let combined_score := tech_weight * tech_score + news_weight * news_score in
  let max_possible := tech_weight + news_weight in
  if Qltb 0 max_possible then combined_score / max_possible else 0.0.

(** The [signal_type] and [confidence] the bodies compute from it. *)
Definition signal_of (tech_buy : bool) (normalized : Q) : string :=
  if tech_buy && Qle_bool 0.35 normalized then "BUY" else "HOLD".

Definition confidence_of (tech_buy : bool) (normalized : Q) : Q :=
  Py.round (if String.eqb (signal_of tech_buy normalized) "BUY"
            then normalized else 0.2) 3.

(** What a combination result looks like, given the technical condition
    [b] and the two fields read from the news result. *)
Definition assembled (b : bool) (avg news_confidence : Q)
    (r : StrategyResult) : Prop :=
  let n := normalized_of b avg news_confidence in
  signal_type r = signal_of b n
  /\ confidence r = confidence_of b n
  /\ extra r !! "normalized_score" = Some (VNum (Py.round n 3)).

(** The result every strategy returns when it lacks data. *)
Definition not_enough_candles : StrategyResult :=
  {| signal_type := "HOLD";
     confidence := 0.1;
     extra := {[ "reason" := VStr "not_enough_candles" ]} |}.

(** ** The specification's own formulations

    These follow the wording of the design document and are compared with
    the code above. *)

Module Spec.

(** *** Fusion of a technical condition with the news result *)

Definition normalized (tech_buy : bool) (avg_sentiment news_confidence : Q) : Q :=
  let tech_score := if tech_buy then 1 else 0 in
  let news_score := Qmax 0 avg_sentiment in
  let tech_weight := if tech_buy then 0.7 else 0.35 in
  let news_weight := 0.3 * Qmax 0.2 news_confidence in
  (tech_weight * tech_score + news_weight * news_score)
  / (tech_weight + news_weight).

Definition is_buy (tech_buy : bool) (avg_sentiment news_confidence : Q) : bool :=
  tech_buy && Qle_bool 0.35 (normalized tech_buy avg_sentiment news_confidence).

Definition signal (tech_buy : bool) (avg_sentiment news_confidence : Q) : string :=
  if is_buy tech_buy avg_sentiment news_confidence then "BUY" else "HOLD".

(** *** The table of variants *)

Definition min_history (c : Combination) : nat :=
  match c with
  | NewsRSI self => NewsRSICombo.rsi_period self + 1
  | NewsBreakout self => NewsBreakoutCombo.lookback self + 1
  | NewsTrendMA200 self => NewsTrendMA200Combo.ma_period self + 20
  end.

(** All period lengths are positive. *)
Definition well_configured (c : Combination) : bool :=
  match c with
  | NewsRSI self => (0 <? NewsRSICombo.rsi_period self)%nat
  | NewsBreakout self => (0 <? NewsBreakoutCombo.lookback self)%nat
  | NewsTrendMA200 self => (0 <? NewsTrendMA200Combo.ma_period self)%nat
  end.

Definition technical_condition (c : Combination) (candles : list Candle)
    : outcome bool :=
  match c with
  | NewsRSI self =>
      Ret (Qltb (compute_rsi (map close candles) (NewsRSICombo.rsi_period self))
                (NewsRSICombo.oversold self))
  | NewsBreakout self =>
      last ← last_item candles;
      hh ← highest_high (but_last candles) (NewsBreakoutCombo.lookback self);
      Ret (Qltb hh (close last))
  | NewsTrendMA200 self =>
      let pct := NewsTrendMA200Combo.pullback_pct self in
      sma ← simple_ma (map close candles) (NewsTrendMA200Combo.ma_period self);
      last ← last_item candles;
      recent_high ← max_of (last_n 20 (map close candles));
      let drop :=
        if Qltb 0 recent_high then (recent_high - close last) / recent_high
        else 0 in
      Ret (Qltb sma (close last)
           && (Qle_bool (0.5 * pct) drop && Qle_bool drop pct))
  end.

(** *** Wilder's RSI *)

Fixpoint differences (closes : list Q) : list Q :=
  match closes with
  | a :: (b :: _) as rest => (b - a) :: differences rest
  | _ => []
  end.

Definition gain (d : Q) : Q := Qmax d 0.
Definition loss (d : Q) : Q := Qmax (- d) 0.

Fixpoint total (xs : list Q) : Q :=
  match xs with
  | [] => 0
  | x :: rest => x + total rest
  end.

(** [avg = (avg*(period-1) + value)/period] for every further value. *)
Fixpoint wilder (period : nat) (avg : Q) (further : list Q) : Q :=
  match further with
  | [] => avg
  | v :: rest =>
      wilder period
        ((avg * (inject_Z (Z.of_nat period) - 1) + v) / inject_Z (Z.of_nat period))
        rest
  end.

Definition smoothed (period : nat) (xs : list Q) : Q :=
  wilder period (total (take period xs) / inject_Z (Z.of_nat period))
         (drop period xs).

Definition rsi (closes : list Q) (period : nat) : Q :=
  if (length closes <? period + 1)%nat then 50
  else
    let avg_gain := smoothed period (map gain (differences closes)) in
    let avg_loss := smoothed period (map loss (differences closes)) in
    if Qeq_bool avg_loss 0 then 100
    else 100 - 100 / (1 + avg_gain / avg_loss).

(** *** Weighted news sentiment *)

Record item : Type := {
  sentiment : Q;
  impact : Q;
  hours_ago : Q;
}.

Definition recency_weight (it : item) : Q :=
  Qmax 0.1 (1 / (1 + hours_ago it / 8)).

Definition weight (it : item) : Q := impact it * recency_weight it.

Definition weighted_average (items : list item) : Q :=
  let total_weight := total (map weight items) in
  if Qeq_bool total_weight 0 then 0
  else total (map (fun it => sentiment it * weight it) items) / total_weight.


(** *** Maximum of a sequence *)

(** The last [n] elements, or all of them when there are fewer. *)
Definition trailing {A} (n : nat) (xs : list A) : list A :=
  rev (take n (rev xs)).

Definition is_maximum (m : Q) (xs : list Q) : Prop :=
  m ∈ xs /\ Forall (fun x => x <= m) xs.

End Spec.

(** A plain score field as a number, the default substituted when the
    field is absent or [None]. *)
Definition score_of (dflt : Q) (v : value) : Q :=
  match v with
  | VInt z => inject_Z z
  | VNum x => x
  | _ => dflt
  end.

Definition item_of (env : Env) (art : gmap string value) : Spec.item :=
  {| Spec.sentiment := score_of 0 (get art "sentiment_score");
     Spec.impact := score_of 0.5 (get art "impact_score");
     Spec.hours_ago := default 0 (hours_ago_of env art) |}.

(** ** Concrete worlds used in the examples below *)

Module Scenario.

(** The two timestamps that occur in the example rows, as
    [datetime.fromisoformat] reads them; the clock stands at the epoch. *)
Definition fromisoformat (s : string) : option datetime :=
  if String.eqb s "1970-01-01T00:00:00+00:00" then Some (Aware 0)
  else if String.eqb s "1970-01-01T08:00:00+00:00" then Some (Aware 28800)
  else None.

(** No example row carries a score that is a numeral in a string; every
    string score that does occur is rejected by [float]. *)
Definition float_of_str (s : string) : option Q := None.

Definition world (rows : list (gmap string value)) : Env :=
  {| World.float_of_str := float_of_str;
     World.fromisoformat := fromisoformat;
     utcnow := 0;
     news_articles := fun _ _ => rows |}.

Definition article (sentiment impact : Q) (published_at : string)
    : gmap string value :=
  {[ "sentiment_score" := VNum sentiment;
     "impact_score" := VNum impact;
     "published_at" := VStr published_at ]}.

Definition now : string := "1970-01-01T00:00:00Z".
Definition eight_hours_ahead : string := "1970-01-01T08:00:00Z".

(** Two moderately positive articles. *)
Definition bullish : list (gmap string value) :=
  [article 0.5 1 now; article 0.5 1 now].

(** Two articles whose sentiment lies outside [-1, 1]. *)
Definition euphoric : list (gmap string value) :=
  [article 5 1 now; article 5 1 now].


(** An article dated eight hours after the clock, then a current one. *)
Definition ahead : list (gmap string value) :=
  [article 0.5 1 eight_hours_ahead; article 0.5 1 now].

(** Two current articles whose impacts cancel. *)
Definition cancelling : list (gmap string value) :=
  [article 0.5 1 now; article 0.5 (-1) now].

(** A row whose sentiment is a word, then a current article. *)
Definition worded : list (gmap string value) :=
  [ {[ "sentiment_score" := VStr "n/a"; "published_at" := VStr now ]};
    article 0.5 1 now ].

(** Two rows without any score. *)
Definition bare : list (gmap string value) :=
  [ {[ "published_at" := VStr now ]}; {[ "published_at" := VStr now ]} ].

(** [n] candles whose prices fall by one each day, starting from 100. *)
Definition falling (n : nat) : list Candle :=
  map (fun k => let px := inject_Z (100 - Z.of_nat k) in
                {| time := ""; open := px; high := px; low := px;
                   close := px; volume := 0 |})
      (seq 0 n).

Definition news : NewsSentimentStrategy.t := NewsSentimentStrategy.default.

Definition rsi_combo : Combination :=
  NewsRSI {| NewsRSICombo.news_strategy := news;
             NewsRSICombo.rsi_period := 14;
             NewsRSICombo.oversold := 30.0 |}.

(** The RSI combination on fifteen falling candles in a given world. *)
Definition rsi_run (rows : list (gmap string value))
    : outcome StrategyResult * list query :=
  generate_signal (Combined rsi_combo) "AAPL" (falling 15) (world rows) [].

(** The news-sentiment strategy alone in a given world. *)
Definition sentiment_run (rows : list (gmap string value))
    : outcome StrategyResult * list query :=
  generate_signal (NewsSentiment news) "AAPL" [] (world rows) [].

(** The value of a run that returns. *)
Definition returned (run : outcome StrategyResult * list query)
    : StrategyResult :=
  match fst run with
  | Ret r => r
  | Raise _ => not_enough_candles
  end.

Definition rsi_bullish : StrategyResult := Eval vm_compute in returned (rsi_run bullish).
Definition rsi_euphoric : StrategyResult := Eval vm_compute in returned (rsi_run euphoric).
Definition news_bullish : StrategyResult := Eval vm_compute in returned (sentiment_run bullish).
Definition the_query : list query := Eval vm_compute in snd (sentiment_run bullish).

End Scenario.

(** ** Further predicates on the fetched rows *)

(** An article whose sentiment, as read, is not positive and whose impact,
    as read, is not negative. *)
Definition not_bullish (env : Env) (art : gmap string value) : bool :=
  match read_sentiment env art with
  | Ret s => Qle_bool s 0
  | Raise _ => true
  end
  &&
  match read_impact env art with
  | Ret i => Qle_bool 0 i
  | Raise _ => true
  end.

(** ** Rows the aggregation loop can process *)

(** [float] of an [int] of this magnitude or more does not return:
    binary64 has no finite value that near, and Python raises
    [OverflowError]. *)
Definition float_limit : Z := 2 ^ 1024 - 2 ^ 970.

(** A score field that [float(... or default)] turns into a number: a
    falsy value ([None] or absent, [False], a zero, [""], [[]], [{}]),
    which [or] replaces by the default; [True]; a float; an [int] below
    [float_limit]; a string the parser reads. *)
Definition coercible (env : Env) (v : value) : bool :=
  negb (truthy v)
  || match v with
     | VBool _ | VNum _ => true
     | VInt z => (Z.abs z <? float_limit)%Z
     | VStr s => match float_of_str env s with Some _ => true | None => false end
     | _ => false
     end.

(** A score field on which [float] raises whatever the size of the
    numbers: a non-empty string the parser refuses, a non-empty list or
    dictionary. *)
Definition rejected (env : Env) (v : value) : bool :=
  truthy v
  && match v with
     | VStr s => match float_of_str env s with Some _ => false | None => true end
     | VList _ | VDict _ => true
     | _ => false
     end.

(** A timestamp the loop can use: not a string, or an offset-aware ISO
    instant that does not lie exactly eight hours after the clock. *)
Definition timely (env : Env) (art : gmap string value) : bool :=
  match hours_ago_of env art with
  | Some h => negb (Qeq_bool h (-8))
  | None => false
  end.

Definition processable (env : Env) (art : gmap string value) : bool :=
  coercible env (get art "sentiment_score")
  && coercible env (get art "impact_score")
  && timely env art.

Definition unprocessable (env : Env) (art : gmap string value) : bool :=
  rejected env (get art "sentiment_score")
  || rejected env (get art "impact_score")
  || negb (timely env art).

(** The news item the loop reads from a row. *)
Definition read_item (env : Env) (art : gmap string value) : Spec.item :=
  {| Spec.sentiment :=
       match read_sentiment env art with Ret s => s | Raise _ => 0 end;
     Spec.impact :=
       match read_impact env art with Ret i => i | Raise _ => 0.5 end;
     Spec.hours_ago := default 0 (hours_ago_of env art) |}.

(** A number that is zero. *)
Definition zero_number (v : value) : bool :=
  match v with
  | VInt z => (z =? 0)%Z
  | VNum x => Qeq_bool x 0
  | _ => false
  end.

(** The smallest impact considered: weights of this size and more keep
    the full relative precision of binary64. *)
Definition least_impact : Q := 1 / inject_Z (10 ^ 300).

(** The ranges of the data model for a news item: a sentiment in [-1, 1]
    and an impact in (0, 1], not below [least_impact]; an [impact_score]
    that is a zero number is left aside. *)
Definition within_ranges (env : Env) (art : gmap string value) : bool :=
  match read_sentiment env art with
  | Ret s => Qle_bool (-1) s && Qle_bool s 1
  | Raise _ => false
  end
  && match read_impact env art with
     | Ret i => Qle_bool least_impact i && Qle_bool i 1
     | Raise _ => false
     end
  && negb (zero_number (get art "impact_score")).

(** A world whose parser reads the numeral ["0.5"], and rows with scores
    that are not numbers. *)
Definition lenient_float_of_str (s : string) : option Q :=
  if String.eqb s "0.5" then Some 0.5 else None.

Definition lenient_world (rows : list (gmap string value)) : Env :=
  {| float_of_str := lenient_float_of_str;
     fromisoformat := Scenario.fromisoformat;
     utcnow := 0;
     news_articles := fun _ _ => rows |}.

Definition sloppy : list (gmap string value) :=
  [ {[ "sentiment_score" := VStr ""; "impact_score" := VBool false;
       "published_at" := VStr Scenario.now ]};
    {[ "sentiment_score" := VList []; "impact_score" := VDict ∅ ]};
    {[ "sentiment_score" := VBool true; "impact_score" := VStr "0.5";
       "published_at" := VStr Scenario.now ]};
    {[ "sentiment_score" := VInt 1; "published_at" := VNone ]} ].

(** ** [run_strategies.py]: the runner over the database

    The runner reads three more tables and inserts into [signals].  Every
    database call is an event of a trace; console output is not part of
    the model. *)

Module Runner.

(** The dictionary inserted into [signals]. *)
Record Payload : Type := {
  asset_id : value;
  strategy_id : value;
  signal_type : string;
  price : Q;
  timeframe : string;
  generated_at : string;
  meta : gmap string value;
}.

Inductive event : Type :=
| SelectCandles (symbol timeframe : string)
| SelectAsset (symbol : string)
| SelectStrategy (slug : string)
| SelectNews (q : query)
| InsertSignal (payload : Payload).

Record Database : Type := {
  (** clock, parsers and news table *)
  world : Env;
  (** rows of [candles] for a symbol and a timeframe, ordered by [time],
      newest first *)
  candles_desc : string -> string -> list Candle;
  (** the [id] column of the rows of [assets] with a given symbol *)
  asset_ids : string -> list value;
  (** the [id] column of the rows of [strategies] with a given slug *)
  strategy_ids : string -> list value;
}.

Definition R (A : Type) : Type :=
  Database -> list event -> outcome A * list event.

#[export] Instance R_ret : MRet R := fun _ a _ trace => (Ret a, trace).
#[export] Instance R_bind : MBind R := fun _ _ f m db trace =>
  match m db trace with
  | (Ret a, trace') => f a db trace'
  | (Raise e, trace') => (Raise e, trace')
  end.

(** A strategy call inside the runner: its news queries join the trace. *)
Definition call {A} (m : M A) : R A :=
  fun db trace =>
    let '(o, queries) := m (world db) [] in
    (o, trace ++ map SelectNews queries).

(** A pure expression that may raise. *)
Definition eval {A} (o : outcome A) : R A := fun _ trace => (o, trace).

Definition fetch_candles_from_db (symbol timeframe : string) : R (list Candle) :=
  fun db trace =>
    let data := take 300 (candles_desc db symbol timeframe) in
    (Ret (rev data), trace ++ [SelectCandles symbol timeframe]).

(** [None] is [VNone]. *)
Definition get_asset_id (symbol : string) : R value :=
  fun db trace =>
    let rows := take 1 (asset_ids db symbol) in
    (Ret match rows with
         | [] => VNone
         | id :: _ => id
         end,
     trace ++ [SelectAsset symbol]).

Definition get_strategy_id (slug : string) : R value :=
  fun db trace =>
    let rows := take 1 (strategy_ids db slug) in
    (Ret match rows with
         | [] => VNone
         | id :: _ => id
         end,
     trace ++ [SelectStrategy slug]).

(** [supabase.table("signals").insert(payload).execute()] *)
Definition insert_signal (payload : Payload) : R unit :=
  fun _ trace => (Ret tt, trace ++ [InsertSignal payload]).

(** The class attributes [code] and [timeframe]. *)
Definition code_of (strat : Combination) : string :=
  match strat with
  | NewsRSI _ => NewsRSICombo.code
  | NewsBreakout _ => NewsBreakoutCombo.code
  | NewsTrendMA200 _ => NewsTrendMA200Combo.code
  end.

Definition timeframe_of (strat : Combination) : string :=
  match strat with
  | NewsRSI _ => "1D"
  | NewsBreakout _ => "1D"
  | NewsTrendMA200 _ => "1D"
  end.

(** [for x in xs: body(x)] *)
Fixpoint for_each {A} (xs : list A) (body : A -> R unit) : R unit :=
  match xs with
  | [] => mret tt
  | x :: rest => body x ≫= fun _ => for_each rest body
  end.

(** The body of the loop over the strategies in [run_for_asset]. *)
Definition run_strategy (symbol timeframe : string) (candles : list Candle)
    (asset : value) (last_candle : Candle) (strat : Combination) : R unit :=
  if negb (String.eqb (timeframe_of strat) timeframe) then mret tt
  else
    let strategy_slug := code_of strat in
    if String.eqb strategy_slug "" then mret tt
    else
      strategy ← get_strategy_id strategy_slug;
      if negb (truthy strategy) then mret tt
      else
        res ← call (generate_signal (Combined strat) symbol candles);
        let signal := normalize_signal_type (Base.signal_type res) in
        let payload :=
          {| asset_id := asset;
             strategy_id := strategy;
             signal_type := signal;
             price := close last_candle;
             timeframe := timeframe_of strat;
             generated_at := time last_candle;
             meta := extra res |} in
        insert_signal payload.

Definition run_for_asset (symbol timeframe : string) : R unit :=
  candles ← fetch_candles_from_db symbol timeframe;
  match candles with
  | [] => mret tt
  | _ =>
      asset ← get_asset_id symbol;
      if negb (truthy asset) then mret tt
      else
        last_candle ← eval (last_item candles);
        let strategies := build_combined_strategies in
        for_each strategies
          (run_strategy symbol timeframe candles asset last_candle)
  end.

Definition run_for_universe (symbols : list string) : R unit :=
  for_each symbols (fun symbol => run_for_asset symbol "1D").

(** The payloads inserted and the news queries made along a trace. *)
Definition inserted (trace : list event) : list Payload :=
  omap (fun e => match e with InsertSignal p => Some p | _ => None end) trace.

Definition news_queries (trace : list event) : list query :=
  omap (fun e => match e with SelectNews q => Some q | _ => None end) trace.

(** Whatever the trace so far, [m] only appends events, and each of them
    satisfies [P]. *)
Definition emits {A} (db : Database) (P : event -> Prop) (m : R A) : Prop :=
  forall trace, exists events,
    snd (m db trace) = trace ++ events /\ Forall P events.

(** The first [id] of a lookup, [None] when there is no row. *)
Definition first_id (ids : list value) : value := default VNone (head ids).

End Runner.

(** [n] candles whose prices fall by one each day, starting from 1000. *)
Definition declining (n : nat) : list Candle :=
  map (fun k => let px := inject_Z (1000 - Z.of_nat k) in
                {| time := ""; open := px; high := px; low := px;
                   close := px; volume := 0 |})
      (seq 0 n).

(** A database with 230 declining candles, one asset and the three
    strategies, over a given news table. *)
Definition market (rows : list (gmap string value)) : Runner.Database :=
  {| Runner.world := Scenario.world rows;
     Runner.candles_desc := fun _ _ => rev (declining 230);
     Runner.asset_ids := fun _ => [VStr "asset-1"];
     Runner.strategy_ids := fun slug => [VStr slug] |}.

(** * Properties *)

(** ** Comparisons, [max], [min] and [round] on rationals *)

Section Numbers.

Lemma Qltb_lt (x y : Q) : Qltb x y = true <-> x < y.
Proof. unfold Qltb, Qlt. apply Z.ltb_lt. Qed.

Lemma Qltb_ge (x y : Q) : Qltb x y = false <-> y <= x.
Proof. unfold Qltb, Qle. rewrite Z.ltb_ge. reflexivity. Qed.

#[global] Instance Qltb_comp : Proper (Qeq ==> Qeq ==> eq) Qltb.
Proof.
  intros x x' Hx y y' Hy.
  destruct (Qltb x y) eqn:E, (Qltb x' y') eqn:E'; try reflexivity.
  - apply Qltb_lt in E. apply Qltb_ge in E'. rewrite Hx, Hy in E. lra.
  - apply Qltb_ge in E. apply Qltb_lt in E'. rewrite Hx, Hy in E. lra.
Qed.

Lemma max2_Qmax (a b : Q) : max2 a b == Qmax a b.
Proof.
  unfold max2. destruct (Qltb a b) eqn:E.
  - apply Qltb_lt in E. symmetry. apply Q.max_r. lra.
  - apply Qltb_ge in E. symmetry. apply Q.max_l. lra.
Qed.

Lemma min2_Qmin (a b : Q) : min2 a b == Qmin a b.
Proof.
  unfold min2. destruct (Qltb b a) eqn:E.
  - apply Qltb_lt in E. symmetry. apply Q.min_r. lra.
  - apply Qltb_ge in E. symmetry. apply Q.min_l. lra.
Qed.

#[global] Instance max2_comp : Proper (Qeq ==> Qeq ==> Qeq) max2.
Proof. intros x x' Hx y y' Hy. rewrite !max2_Qmax, Hx, Hy. reflexivity. Qed.

#[global] Instance min2_comp : Proper (Qeq ==> Qeq ==> Qeq) min2.
Proof. intros x x' Hx y y' Hy. rewrite !min2_Qmin, Hx, Hy. reflexivity. Qed.

Lemma max2_lower (a b : Q) : a <= max2 a b /\ b <= max2 a b.
Proof.
  unfold max2. destruct (Qltb a b) eqn:E.
  - apply Qltb_lt in E. lra.
  - apply Qltb_ge in E. lra.
Qed.

Lemma max2_upper (a b c : Q) : a <= c -> b <= c -> max2 a b <= c.
Proof. unfold max2. destruct (Qltb a b); trivial. Qed.

Lemma min2_upper (a b : Q) : min2 a b <= a /\ min2 a b <= b.
Proof.
  unfold min2. destruct (Qltb b a) eqn:E.
  - apply Qltb_lt in E. lra.
  - apply Qltb_ge in E. lra.
Qed.

Lemma min2_lower (a b c : Q) : c <= a -> c <= b -> c <= min2 a b.
Proof. unfold min2. destruct (Qltb b a); trivial. Qed.

(** Rounding does not depend on the representative of a rational. *)
Lemma round_half_even_comp (x y : Q) :
  x == y -> round_half_even x = round_half_even y.
Proof.
  destruct x as [nx dx], y as [ny dy]. unfold Qeq, round_half_even. simpl.
  intros H.
  assert (Hq : (nx / Z.pos dx = ny / Z.pos dy)%Z).
  { rewrite <- (Z.div_mul_cancel_r nx (Z.pos dx) (Z.pos dy)) by lia.
    rewrite <- (Z.div_mul_cancel_r ny (Z.pos dy) (Z.pos dx)) by lia.
    rewrite H. f_equal. lia. }
  assert (Hc : (2 * (nx mod Z.pos dx) ?= Z.pos dx)%Z
               = (2 * (ny mod Z.pos dy) ?= Z.pos dy)%Z).
  { rewrite (Zmult_compare_compat_r _ _ (Z.pos dy)) by lia.
    rewrite (Zmult_compare_compat_r (2 * (ny mod Z.pos dy)) _ (Z.pos dx)) by lia.
    rewrite !Z.mod_eq by lia. rewrite Hq. f_equal; nia. }
  rewrite Hc, Hq. reflexivity.
Qed.

(** Rounding never crosses an integer. *)
Lemma round_half_even_lower (a : Z) (x : Q) :
  inject_Z a <= x -> (a <= round_half_even x)%Z.
Proof.
  destruct x as [n d]. unfold Qle, round_half_even. simpl.
  rewrite !Z.mul_1_r. intros Ha.
  pose proof (Z.mod_pos_bound n (Z.pos d) ltac:(lia)) as Hr.
  assert (Hqa : (a <= n / Z.pos d)%Z) by (apply Z.div_le_lower_bound; lia).
  destruct (Z.compare_spec (2 * (n mod Z.pos d)) (Z.pos d)) as [E | E | E];
    [destruct (Z.even (n / Z.pos d)) | |]; lia.
Qed.

Lemma round_half_even_upper (b : Z) (x : Q) :
  x <= inject_Z b -> (round_half_even x <= b)%Z.
Proof.
  destruct x as [n d]. unfold Qle, round_half_even. simpl.
  rewrite !Z.mul_1_r. intros Hb.
  pose proof (Z.div_mod n (Z.pos d) ltac:(lia)) as Hdm.
  pose proof (Z.mod_pos_bound n (Z.pos d) ltac:(lia)) as Hr.
  assert (Hqb : (n / Z.pos d <= b)%Z) by (apply Z.div_le_upper_bound; lia).
  destruct (Z.compare_spec (2 * (n mod Z.pos d)) (Z.pos d)) as [E | E | E].
  - destruct (Z.even (n / Z.pos d)); nia.
  - lia.
  - nia.
Qed.

Lemma round_comp (x y : Q) (n : nat) : x == y -> Py.round x n = Py.round y n.
Proof.
  intros H. unfold Py.round.
  rewrite (round_half_even_comp (x * _) (y * inject_Z (10 ^ Z.of_nat n))).
  - reflexivity.
  - rewrite H. reflexivity.
Qed.

Lemma round3_scaled (x : Q) :
  Py.round x 3 * 1000 == inject_Z (round_half_even (x * 1000)).
Proof.
  unfold Py.round. rewrite Qred_correct.
  change (inject_Z (10 ^ Z.of_nat 3)) with 1000. field.
Qed.

(** Rounding to three decimals never crosses a multiple of one
    thousandth. *)
Lemma round3_lower (a : Z) (x : Q) :
  inject_Z a <= x * 1000 -> inject_Z a <= Py.round x 3 * 1000.
Proof.
  intros Ha. rewrite round3_scaled, <- Zle_Qle.
  apply round_half_even_lower, Ha.
Qed.

Lemma round3_upper (b : Z) (x : Q) :
  x * 1000 <= inject_Z b -> Py.round x 3 * 1000 <= inject_Z b.
Proof.
  intros Hb. rewrite round3_scaled, <- Zle_Qle.
  apply round_half_even_upper, Hb.
Qed.

Lemma round3_unit (x : Q) :
  0 <= x -> x <= 1 -> 0 <= Py.round x 3 /\ Py.round x 3 <= 1.
Proof.
  intros H0 H1.
  pose proof (round3_lower 0 x) as Ha. pose proof (round3_upper 1000 x) as Hb.
  unfold inject_Z in Ha, Hb. split; lra.
Qed.





End Numbers.

(** ** Running the monad *)

Section Running.

Lemma run_bind {A B} (m : M A) (f : A -> M B) (env : Env) (log : list query) :
  (m ≫= f) env log =
  match m env log with
  | (Ret a, log') => f a env log'
  | (Raise e, log') => (Raise e, log')
  end.
Proof. reflexivity. Qed.

Lemma run_ret {A} (a : A) (env : Env) (log : list query) :
  (mret a : M A) env log = (Ret a, log).
Proof. reflexivity. Qed.

Lemma run_reading {A} (f : Env -> outcome A) (env : Env) (log : list query) :
  reading f env log = (f env, log).
Proof. reflexivity. Qed.

Lemma run_pure {A} (o : outcome A) (env : Env) (log : list query) :
  pure o env log = (o, log).
Proof. reflexivity. Qed.

(** The news strategy always issues exactly one query, and its outcome is
    a function of the rows fetched. *)
Lemma news_run (self : NewsSentimentStrategy.t) (symbol : string)
    (candles : list Candle) (env : Env) (log : list query) :
  NewsSentimentStrategy.generate_signal self symbol candles env log =
  (let articles := fetched env self symbol in
   if (length articles <? NewsSentimentStrategy.min_articles self)%nat then
     Ret {| signal_type := "HOLD";
            confidence := 0.1;
            extra := {[ "reason" := VStr "not_enough_news";
                        "articles_count" := VInt (Z.of_nat (length articles));
                        "avg_sentiment" := VNum 0.0 ]} |}
   else
     avg_sentiment ← NewsSentimentStrategy._aggregate_sentiment env articles;
     Ret {| signal_type := if Qltb 0 avg_sentiment then "BUY" else "HOLD";
            confidence := Py.round (min2 1.0 (max2 0.0 (Qabs avg_sentiment))) 3;
            extra := {[ "avg_sentiment" := VNum (Py.round avg_sentiment 3);
                        "articles_count" := VInt (Z.of_nat (length articles)) ]} |},
   log ++ [news_query env self symbol]).
Proof.
  unfold NewsSentimentStrategy.generate_signal,
    NewsSentimentStrategy._fetch_recent_news.
  rewrite !run_bind, run_reading. unfold select_news, fetched, news_query.
  cbv zeta.
  destruct (_ <? _)%nat; [reflexivity |].
  rewrite run_bind, run_reading.
  destruct (NewsSentimentStrategy._aggregate_sentiment _ _); reflexivity.
Qed.

End Running.

(** ** The three combination bodies *)

Section Combinations.

Lemma short_history (c : Combination) (candles : list Candle) :
  (Spec.min_history c <= length candles)%nat ->
  (length candles <? Spec.min_history c)%nat = false.
Proof. intros H. apply Nat.ltb_ge. exact H. Qed.

Lemma pullback_test (pct sma rh cl : Q) :
  Qltb sma cl
  && (Qle_bool (pct * 0.5)
        (if Qltb 0 rh then (rh - cl) / rh else 0.0)
      && Qle_bool (if Qltb 0 rh then (rh - cl) / rh else 0.0) pct)
  = Qltb sma cl
    && (Qle_bool (0.5 * pct)
          (if Qltb 0 rh then (rh - cl) / rh else 0)
        && Qle_bool (if Qltb 0 rh then (rh - cl) / rh else 0) pct).
Proof.
  assert (E : (if Qltb 0 rh then (rh - cl) / rh else 0.0)
              == (if Qltb 0 rh then (rh - cl) / rh else 0))
    by (destruct (Qltb 0 rh); reflexivity).
  rewrite E. rewrite (Qmult_comm pct 0.5). reflexivity.
Qed.

(** With enough candles, each body evaluates its technical condition,
    asks the news strategy, and assembles the result. *)
Lemma combination_run (c : Combination) (symbol : string)
    (candles : list Candle) (env : Env) (log log' : list query)
    (b : bool) (nr : StrategyResult) (avg : Q) :
  (Spec.min_history c <= length candles)%nat ->
  Spec.technical_condition c candles = Ret b ->
  NewsSentimentStrategy.generate_signal (news_of c) symbol candles env log
    = (Ret nr, log') ->
  extra nr !! "avg_sentiment" = Some (VNum avg) ->
  exists r,
    generate_signal (Combined c) symbol candles env log = (Ret r, log')
    /\ assembled b avg (confidence nr) r.
Proof.
  intros Hlen Htech Hnews Havg. apply short_history in Hlen.
  destruct c as [self | self | self]; simpl in Hlen, Htech, Hnews |- *.
  - unfold NewsRSICombo.generate_signal. rewrite Hlen. cbv zeta.
    injection Htech as Htech.
    rewrite run_bind, Hnews, run_bind. unfold news_avg_sentiment.
    rewrite run_reading, Havg. simpl Py.float. cbv iota beta.
    rewrite run_ret, Htech.
    eexists. split; [reflexivity |]. repeat split.
  - unfold NewsBreakoutCombo.generate_signal. rewrite Hlen. cbv zeta.
    rewrite run_bind, run_pure.
    destruct (last_item candles) as [last | e]; [| discriminate].
    simpl in Htech. rewrite run_bind, run_pure.
    destruct (highest_high _ _) as [hh | e]; [| discriminate].
    injection Htech as Htech.
    rewrite run_bind, Hnews, run_bind. unfold news_avg_sentiment.
    rewrite run_reading, Havg. simpl Py.float. cbv iota beta.
    rewrite run_ret, Htech.
    eexists. split; [reflexivity |]. repeat split.
  - unfold NewsTrendMA200Combo.generate_signal. rewrite Hlen. cbv zeta.
    rewrite run_bind, run_pure.
    destruct (simple_ma _ _) as [sma | e]; [| discriminate].
    simpl in Htech. rewrite run_bind, run_pure.
    destruct (last_item candles) as [last | e]; [| discriminate].
    simpl in Htech. rewrite run_bind, run_pure.
    destruct (max_of _) as [rh | e]; [| discriminate].
    injection Htech as Htech.
    rewrite run_bind, Hnews, run_bind. unfold news_avg_sentiment.
    rewrite run_reading, Havg. simpl Py.float. cbv iota beta.
    rewrite run_ret, pullback_test, Htech.
    eexists. split; [reflexivity |]. repeat split.
Qed.

Lemma combination_short (c : Combination) (symbol : string)
    (candles : list Candle) (env : Env) (log : list query) :
  (length candles < Spec.min_history c)%nat ->
  generate_signal (Combined c) symbol candles env log
  = (Ret not_enough_candles, log).
Proof.
  intros Hlen. apply Nat.ltb_lt in Hlen.
  destruct c as [self | self | self]; simpl in Hlen |- *.
  - unfold NewsRSICombo.generate_signal. rewrite Hlen. reflexivity.
  - unfold NewsBreakoutCombo.generate_signal. rewrite Hlen. reflexivity.
  - unfold NewsTrendMA200Combo.generate_signal. rewrite Hlen. reflexivity.
Qed.

(** A failing technical condition fails the call before any query. *)
Lemma combination_raise_tech (c : Combination) (symbol : string)
    (candles : list Candle) (env : Env) (log : list query) (e : exn) :
  (Spec.min_history c <= length candles)%nat ->
  Spec.technical_condition c candles = Raise e ->
  generate_signal (Combined c) symbol candles env log = (Raise e, log).
Proof.
  intros Hlen Htech. apply short_history in Hlen.
  destruct c as [self | self | self]; simpl in Hlen, Htech |- *.
  - discriminate.
  - unfold NewsBreakoutCombo.generate_signal. rewrite Hlen. cbv zeta.
    rewrite run_bind, run_pure.
    destruct (last_item candles) as [last | e']; simpl in Htech; [| congruence].
    rewrite run_bind, run_pure.
    destruct (highest_high _ _) as [hh | e']; simpl in Htech; [discriminate | congruence].
  - unfold NewsTrendMA200Combo.generate_signal. rewrite Hlen. cbv zeta.
    rewrite run_bind, run_pure.
    destruct (simple_ma _ _) as [sma | e']; simpl in Htech; [| congruence].
    rewrite run_bind, run_pure.
    destruct (last_item candles) as [last | e']; simpl in Htech; [| congruence].
    rewrite run_bind, run_pure.
    destruct (max_of _) as [rh | e']; simpl in Htech; [discriminate | congruence].
Qed.

(** A failing news strategy fails the call. *)
Lemma combination_raise_news (c : Combination) (symbol : string)
    (candles : list Candle) (env : Env) (log log' : list query)
    (b : bool) (e : exn) :
  (Spec.min_history c <= length candles)%nat ->
  Spec.technical_condition c candles = Ret b ->
  NewsSentimentStrategy.generate_signal (news_of c) symbol candles env log
    = (Raise e, log') ->
  generate_signal (Combined c) symbol candles env log = (Raise e, log').
Proof.
  intros Hlen Htech Hnews. apply short_history in Hlen.
  destruct c as [self | self | self]; simpl in Hlen, Htech, Hnews |- *.
  - unfold NewsRSICombo.generate_signal. rewrite Hlen. cbv zeta.
    rewrite run_bind, Hnews. reflexivity.
  - unfold NewsBreakoutCombo.generate_signal. rewrite Hlen. cbv zeta.
    rewrite run_bind, run_pure.
    destruct (last_item candles) as [last | e']; [| discriminate].
    simpl in Htech. rewrite run_bind, run_pure.
    destruct (highest_high _ _) as [hh | e']; [| discriminate].
    rewrite run_bind, Hnews. reflexivity.
  - unfold NewsTrendMA200Combo.generate_signal. rewrite Hlen. cbv zeta.
    rewrite run_bind, run_pure.
    destruct (simple_ma _ _) as [sma | e']; [| discriminate].
    simpl in Htech. rewrite run_bind, run_pure.
    destruct (last_item candles) as [last | e']; [| discriminate].
    simpl in Htech. rewrite run_bind, run_pure.
    destruct (max_of _) as [rh | e']; [| discriminate].
    rewrite run_bind, Hnews. reflexivity.
Qed.

End Combinations.

(** ** The news strategy's result *)

Section NewsResult.

Variables (self : NewsSentimentStrategy.t) (symbol : string)
          (candles : list Candle) (env : Env).

(** Either too few rows came back, or the aggregate was computed. *)
Lemma news_inversion (log log' : list query) (nr : StrategyResult) :
  NewsSentimentStrategy.generate_signal self symbol candles env log = (Ret nr, log') ->
  log' = log ++ [news_query env self symbol]
  /\ (((length (fetched env self symbol) < NewsSentimentStrategy.min_articles self)%nat
       /\ signal_type nr = "HOLD" /\ confidence nr = 0.1
       /\ extra nr !! "avg_sentiment" = Some (VNum 0.0)
       /\ extra nr !! "reason" = Some (VStr "not_enough_news"))
      \/ ((NewsSentimentStrategy.min_articles self <= length (fetched env self symbol))%nat
          /\ exists avg,
              NewsSentimentStrategy._aggregate_sentiment env (fetched env self symbol) = Ret avg
              /\ signal_type nr = (if Qltb 0 avg then "BUY" else "HOLD")
              /\ confidence nr = Py.round (min2 1.0 (max2 0.0 (Qabs avg))) 3
              /\ extra nr !! "avg_sentiment" = Some (VNum (Py.round avg 3)))).
Proof.
  rewrite news_run. cbv zeta.
  destruct (length (fetched env self symbol) <? _)%nat eqn:E.
  - intros [= <- <-]. split; [reflexivity |]. left.
    apply Nat.ltb_lt in E. repeat split; assumption.
  - destruct (NewsSentimentStrategy._aggregate_sentiment env (fetched env self symbol))
      as [avg | e] eqn:Eagg; simpl; [| discriminate].
    intros [= <- <-]. split; [reflexivity |]. right.
    apply Nat.ltb_ge in E. split; [assumption |].
    exists avg. repeat split.
Qed.

Lemma clamp_unit (x : Q) :
  0 <= min2 1.0 (max2 0.0 x) /\ min2 1.0 (max2 0.0 x) <= 1.
Proof.
  split.
  - pose proof (max2_lower 0.0 x) as [H0 _]. apply min2_lower; lra.
  - destruct (min2_upper 1.0 (max2 0.0 x)). lra.
Qed.

Lemma news_signal_type (log log' : list query) (nr : StrategyResult) :
  NewsSentimentStrategy.generate_signal self symbol candles env log = (Ret nr, log') ->
  signal_type nr = "BUY" \/ signal_type nr = "HOLD".
Proof.
  intros H. apply news_inversion in H as [_ [(_ & Hs & _) | (_ & avg & _ & Hs & _)]].
  - right. exact Hs.
  - rewrite Hs. destruct (Qltb 0 avg); [left | right]; reflexivity.
Qed.

Lemma news_confidence_unit (log log' : list query) (nr : StrategyResult) :
  NewsSentimentStrategy.generate_signal self symbol candles env log = (Ret nr, log') ->
  0 <= confidence nr /\ confidence nr <= 1.
Proof.
  intros H. apply news_inversion in H as [_ [(_ & _ & Hc & _) | (_ & avg & _ & _ & Hc & _)]].
  - rewrite Hc. split; lra.
  - rewrite Hc. apply round3_unit; apply clamp_unit.
Qed.

Lemma news_avg_field (log log' : list query) (nr : StrategyResult) :
  NewsSentimentStrategy.generate_signal self symbol candles env log = (Ret nr, log') ->
  exists avg, extra nr !! "avg_sentiment" = Some (VNum avg).
Proof.
  intros H. apply news_inversion in H as [_ [(_ & _ & _ & Ha & _) | (_ & avg & _ & _ & _ & Ha)]];
    eexists; exact Ha.
Qed.

End NewsResult.

(** ** The fusion arithmetic *)

Section Fusion.

Variables (avg news_confidence : Q).

Lemma weights_positive (b : bool) :
  Qltb 0 (0.7 * (if b then 1 else 0.5) + 0.3 * max2 0.2 news_confidence) = true.
Proof.
  apply Qltb_lt. pose proof (max2_lower 0.2 news_confidence) as [H _].
  destruct b; lra.
Qed.





(** With the sentiment at most 1, the score lies in the unit interval. *)
Lemma normalized_of_unit (b : bool) :
  avg <= 1 ->
  0 <= normalized_of b avg news_confidence
  /\ normalized_of b avg news_confidence <= 1.
Proof.
  intros Ha. unfold normalized_of. cbv zeta. rewrite weights_positive.
  pose proof (max2_lower 0.2 news_confidence) as [Hm _].
  pose proof (max2_lower 0.0 avg) as [Hs _].
  pose proof (max2_upper 0.0 avg 1 ltac:(lra) Ha) as Hs1.
  set (m := max2 0.2 news_confidence) in *. set (s := max2 0.0 avg) in *.
  split.
  - apply Qle_shift_div_l; [destruct b; lra | destruct b; nra].
  - apply Qle_shift_div_r; [destruct b; lra | destruct b; nra].
Qed.

End Fusion.

(** ** The aggregation loop *)

Section Aggregation.

Variable env : Env.

Lemma float_plain (v : value) (dflt : Q) :
  plain_score v = true ->
  Py.float (float_of_str env) (py_or v (VNum dflt))
  = Ret (score_of dflt (py_or v (VNum dflt))).
Proof.
  destruct v; try discriminate; intros _; unfold py_or; simpl.
  - reflexivity.
  - destruct (negb _); reflexivity.
  - destruct (negb _); reflexivity.
Qed.

Lemma singular_denominator (h : Q) :
  Qeq_bool (1.0 + h / 8.0) 0 = Qeq_bool h (-8).
Proof.
  destruct (Qeq_bool h (-8)) eqn:E.
  - apply Qeq_bool_iff in E. apply Qeq_bool_iff. rewrite E. reflexivity.
  - apply Qeq_bool_neq in E. destruct (Qeq_bool (1.0 + h / 8.0) 0) eqn:E'; [| reflexivity].
    apply Qeq_bool_iff in E'. exfalso. apply E.
    assert (H8 : h == (1.0 + h / 8.0) * 8 - 8) by field.
    rewrite H8, E'. reflexivity.
Qed.

(** On a readable article the loop body returns the article's sentiment
    and weight. *)
Lemma article_terms_readable (art : gmap string value) :
  readable env art = true ->
  exists h,
    hours_ago_of env art = Some h
    /\ Qeq_bool h (-8) = false
    /\ NewsSentimentStrategy.article_terms env (Aware (utcnow env)) art
       = Ret (score_of 0.0 (py_or (get art "sentiment_score") (VNum 0.0)),
              score_of 0.5 (py_or (get art "impact_score") (VNum 0.5))
              * max2 0.1 (1.0 / (1.0 + h / 8.0))).
Proof.
  unfold readable. intros H.
  apply andb_prop in H as [H Hh]. apply andb_prop in H as [Hs Hi].
  destruct (hours_ago_of env art) as [h |] eqn:Eh; [| discriminate].
  apply negb_true_iff in Hh. exists h. repeat split; [assumption |].
  unfold NewsSentimentStrategy.article_terms.
  rewrite (float_plain _ _ Hs), (float_plain _ _ Hi). simpl.
  unfold hours_ago_of in Eh.
  assert (Hd : Py.div 1.0 (1.0 + h / 8.0) = Ret (1.0 / (1.0 + h / 8.0)))
    by (unfold Py.div; rewrite singular_denominator, Hh; reflexivity).
  destruct (get art "published_at") as [| | | | str | |];
    try (injection Eh as <-; simpl; rewrite Hd; reflexivity).
  destruct (fromisoformat env (replace_Z str)) as [[t | t] |]; try discriminate.
  injection Eh as <-. simpl. rewrite Hd. reflexivity.
Qed.

(** An article exactly eight hours ahead of the clock stops the loop with
    a division by zero. *)
Lemma article_terms_singular (art : gmap string value) (h : Q) :
  plain_score (get art "sentiment_score") = true ->
  plain_score (get art "impact_score") = true ->
  hours_ago_of env art = Some h ->
  h == -8 ->
  NewsSentimentStrategy.article_terms env (Aware (utcnow env)) art
  = Raise ZeroDivisionError.
Proof.
  intros Hs Hi Eh H8.
  unfold NewsSentimentStrategy.article_terms.
  rewrite (float_plain _ _ Hs), (float_plain _ _ Hi). simpl.
  assert (Hd : Py.div 1.0 (1.0 + h / 8.0) = Raise ZeroDivisionError).
  { unfold Py.div. rewrite singular_denominator.
    apply Qeq_bool_iff in H8. rewrite H8. reflexivity. }
  unfold hours_ago_of in Eh.
  destruct (get art "published_at") as [| | | | str | |];
    try (injection Eh as <-; simpl; rewrite Hd; reflexivity).
  destruct (fromisoformat env (replace_Z str)) as [[t | t] |]; try discriminate.
  injection Eh as <-. simpl. rewrite Hd. reflexivity.
Qed.

Lemma recency_weight_spec (h : Q) :
  max2 0.1 (1.0 / (1.0 + h / 8.0)) == Qmax 0.1 (1 / (1 + h / 8)).
Proof.
  rewrite max2_Qmax. apply Q.max_compat; [reflexivity |].
  apply Qdiv_comp; [reflexivity |].
  apply Qplus_comp; [reflexivity |]. apply Qdiv_comp; reflexivity.
Qed.

(** The loop over readable articles runs to its end. *)
Lemma aggregate_loop_readable (articles : list (gmap string value)) :
  forallb (readable env) articles = true ->
  forall weighted_sum weight_total,
  exists totals,
    NewsSentimentStrategy.aggregate_loop env (Aware (utcnow env)) articles
      weighted_sum weight_total = Ret totals.
Proof.
  induction articles as [| art rest IH]; intros Hall ws0 wt0.
  - eexists. reflexivity.
  - simpl in Hall. apply andb_prop in Hall as [Hart Hrest].
    destruct (article_terms_readable art Hart) as (h & _ & _ & Et).
    simpl. rewrite Et. simpl. apply IH. exact Hrest.
Qed.

(** A singular article after readable ones makes the loop raise. *)
Lemma aggregate_loop_singular (before after : list (gmap string value))
    (art : gmap string value) :
  forallb (readable env) before = true ->
  NewsSentimentStrategy.article_terms env (Aware (utcnow env)) art
    = Raise ZeroDivisionError ->
  forall weighted_sum weight_total,
    NewsSentimentStrategy.aggregate_loop env (Aware (utcnow env))
      (before ++ art :: after) weighted_sum weight_total
    = Raise ZeroDivisionError.
Proof.
  intros Hall Hart. induction before as [| b rest IH]; intros ws0 wt0.
  - simpl. rewrite Hart. reflexivity.
  - simpl in Hall. apply andb_prop in Hall as [Hb Hrest].
    destruct (article_terms_readable b Hb) as (h & _ & _ & Et).
    simpl. rewrite Et. simpl. apply IH. exact Hrest.
Qed.

(** A sentiment that is a non-empty string which [float] rejects stops
    the loop body with a [ValueError]; a list stops it with a [TypeError]. *)
Lemma article_terms_unparsable (now : datetime) (art : gmap string value)
    (s : string) :
  get art "sentiment_score" = VStr s -> s <> "" ->
  float_of_str env s = None ->
  NewsSentimentStrategy.article_terms env now art = Raise ValueError.
Proof.
  intros Hget Hne Hparse. unfold NewsSentimentStrategy.article_terms.
  rewrite Hget. unfold py_or. simpl.
  assert (String.eqb s "" = false) as -> by (apply String.eqb_neq, Hne).
  simpl. rewrite Hparse. reflexivity.
Qed.

Lemma article_terms_list_score (now : datetime) (art : gmap string value)
    (x : value) (xs : list value) :
  get art "sentiment_score" = VList (x :: xs) ->
  NewsSentimentStrategy.article_terms env now art = Raise TypeError.
Proof.
  intros Hget. unfold NewsSentimentStrategy.article_terms.
  rewrite Hget. reflexivity.
Qed.

(** An article with plain scores whose timestamp lies exactly eight hours
    after the clock, met after readable articles, makes
    [_aggregate_sentiment] raise. *)
Lemma aggregate_singular (before : list (gmap string value))
    (art : gmap string value) (after : list (gmap string value)) (h : Q) :
  forallb (readable env) before = true ->
  plain_score (get art "sentiment_score") = true ->
  plain_score (get art "impact_score") = true ->
  hours_ago_of env art = Some h -> h == -8 ->
  NewsSentimentStrategy._aggregate_sentiment env (before ++ art :: after)
  = Raise ZeroDivisionError.
Proof.
  intros Hb Hs Hi Hh H8.
  pose proof (article_terms_singular art h Hs Hi Hh H8) as Hart.
  unfold NewsSentimentStrategy._aggregate_sentiment.
  rewrite (aggregate_loop_singular before after art Hb Hart).
  destruct (before ++ art :: after) eqn:E; [| reflexivity].
  destruct before; discriminate.
Qed.

(** Within the ranges of the data model every term of the sum has a
    sentiment in [-1, 1] and a weight that is not negative. *)
Lemma article_terms_bounded (now : datetime) (art : gmap string value) (s w : Q) :
  within_data_model env art = true ->
  NewsSentimentStrategy.article_terms env now art = Ret (s, w) ->
  (-1 <= s /\ s <= 1) /\ 0 <= w.
Proof.
  unfold within_data_model, read_sentiment, read_impact,
    NewsSentimentStrategy.article_terms.
  destruct (Py.float _ (py_or (get art "sentiment_score") _)) as [s0 | e];
    simpl; [| discriminate].
  destruct (Py.float _ (py_or (get art "impact_score") _)) as [i | e];
    simpl; [| discriminate].
  intros Hrange. apply andb_prop in Hrange as [Hs Hi].
  apply andb_prop in Hs as [Hs1 Hs2].
  apply Qle_bool_iff in Hs1, Hs2, Hi.
  match goal with
  | |- context [mbind _ ?p] => destruct p as [d | e]; simpl; [| discriminate]
  end.
  destruct (seconds_between now d) as [secs | e]; simpl; [| discriminate].
  destruct (Py.div _ _) as [inv | e]; simpl; [| discriminate].
  intros [= <- <-].
  pose proof (max2_lower 0.1 inv) as [Hm _].
  split; [split; assumption | nra].
Qed.

Lemma aggregate_loop_bounded (now : datetime) (articles : list (gmap string value)) :
  forallb (within_data_model env) articles = true ->
  forall ws0 wt0 ws wt,
    NewsSentimentStrategy.aggregate_loop env now articles ws0 wt0 = Ret (ws, wt) ->
    - wt0 <= ws0 -> ws0 <= wt0 ->
    - wt <= ws /\ ws <= wt.
Proof.
  induction articles as [| art rest IH]; intros Hall ws0 wt0 ws wt.
  - simpl. intros [= <- <-]. split; assumption.
  - simpl in Hall. apply andb_prop in Hall as [Hart Hrest]. simpl.
    destruct (NewsSentimentStrategy.article_terms env now art) as [[s w] | e] eqn:Et;
      simpl; [| discriminate].
    destruct (article_terms_bounded now art s w Hart Et) as [[Hs1 Hs2] Hw].
    intros El Hlo Hhi. apply (IH Hrest _ _ _ _ El); nra.
Qed.

(** Within the ranges of the data model the aggregate lies in [-1, 1]. *)
Lemma aggregate_bounded (articles : list (gmap string value)) (avg : Q) :
  forallb (within_data_model env) articles = true ->
  NewsSentimentStrategy._aggregate_sentiment env articles = Ret avg ->
  -1 <= avg /\ avg <= 1.
Proof.
  intros Hall. unfold NewsSentimentStrategy._aggregate_sentiment.
  destruct articles as [| art rest]; [intros [= <-]; split; lra |].
  destruct (NewsSentimentStrategy.aggregate_loop _ _ _ _ _) as [[ws wt] | e] eqn:El;
    simpl; [| discriminate].
  destruct (aggregate_loop_bounded _ _ Hall _ _ _ _ El) as [Hlo Hhi]; [lra | lra |].
  intros [= <-]. destruct (Qltb 0 wt) eqn:E.
  - apply Qltb_lt in E. split.
    + apply Qle_shift_div_l; [assumption | lra].
    + apply Qle_shift_div_r; [assumption | lra].
  - split; lra.
Qed.

End Aggregation.

(** ** Rows the loop can and cannot process *)

Section Processing.

Variable env : Env.

Lemma float_coercible (v : value) (dflt : Q) :
  coercible env v = true ->
  exists x,
    Py.float (float_of_str env) (py_or v (VNum dflt)) = Ret x
    /\ (truthy v = false -> x = dflt).
Proof.
  unfold coercible, py_or. destruct (truthy v) eqn:T; simpl.
  - intros H. destruct v as [| b | z | x | str | l | m]; simpl in *;
      try discriminate;
      try (destruct (float_of_str env str); [| discriminate]);
      eexists; (split; [reflexivity | discriminate]).
  - intros _. exists dflt. split; reflexivity.
Qed.

Lemma float_rejected (v : value) (dflt : Q) :
  rejected env v = true ->
  exists e, Py.float (float_of_str env) (py_or v (VNum dflt)) = Raise e.
Proof.
  unfold rejected, py_or. destruct (truthy v) eqn:T; simpl; [| discriminate].
  destruct v as [| b | z | x | str | l | m]; simpl; try discriminate;
    try (destruct (float_of_str env str); [discriminate |]);
    intros _; eexists; reflexivity.
Qed.

(** The time part of the loop body, once both scores are read. *)
Lemma recency_timely (art : gmap string value) (h : Q) :
  hours_ago_of env art = Some h ->
  Qeq_bool h (-8) = false ->
  forall s i : Q,
    (published_at ←
       match get art "published_at" with
       | VStr published_at_str =>
           match fromisoformat env (replace_Z published_at_str) with
           | Some d => Ret d
           | None => Raise ValueError
           end
       | _ => Ret (Aware (utcnow env))
       end;
     seconds ← seconds_between (Aware (utcnow env)) published_at;
     inv ← Py.div 1.0 (1.0 + seconds / 3600.0 / 8.0);
     Ret (s, i * max2 0.1 inv))
    = Ret (s, i * max2 0.1 (1.0 / (1.0 + h / 8.0))).
Proof.
  intros Eh Hh s i.
  assert (Hd : Py.div 1.0 (1.0 + h / 8.0) = Ret (1.0 / (1.0 + h / 8.0)))
    by (unfold Py.div; rewrite singular_denominator, Hh; reflexivity).
  unfold hours_ago_of in Eh.
  destruct (get art "published_at") as [| | | | str | |];
    try (injection Eh as <-; simpl; rewrite Hd; reflexivity).
  destruct (fromisoformat env (replace_Z str)) as [[t | t] |]; try discriminate.
  injection Eh as <-. simpl. rewrite Hd. reflexivity.
Qed.

Lemma recency_untimely (art : gmap string value) :
  timely env art = false ->
  forall s i : Q,
  exists e,
    (published_at ←
       match get art "published_at" with
       | VStr published_at_str =>
           match fromisoformat env (replace_Z published_at_str) with
           | Some d => Ret d
           | None => Raise ValueError
           end
       | _ => Ret (Aware (utcnow env))
       end;
     seconds ← seconds_between (Aware (utcnow env)) published_at;
     inv ← Py.div 1.0 (1.0 + seconds / 3600.0 / 8.0);
     Ret (s, i * max2 0.1 inv))
    = Raise e.
Proof.
  unfold timely. intros Ht s i.
  destruct (hours_ago_of env art) as [h |] eqn:Eh.
  - apply negb_false_iff in Ht.
    assert (Hd : Py.div 1.0 (1.0 + h / 8.0) = @Raise Q ZeroDivisionError)
      by (unfold Py.div; rewrite singular_denominator, Ht; reflexivity).
    exists ZeroDivisionError. unfold hours_ago_of in Eh.
    destruct (get art "published_at") as [| | | | str | |];
      try (injection Eh as <-; simpl; rewrite Hd; reflexivity).
    destruct (fromisoformat env (replace_Z str)) as [[t | t] |]; try discriminate.
    injection Eh as <-. simpl. rewrite Hd. reflexivity.
  - unfold hours_ago_of in Eh.
    destruct (get art "published_at") as [| | | | str | |]; try discriminate.
    destruct (fromisoformat env (replace_Z str)) as [[t | t] |]; try discriminate;
      eexists; reflexivity.
Qed.

(** On a processable row the loop body returns the sentiment and the
    impact as read, the latter weighed by the recency factor. *)
Lemma article_terms_processable (art : gmap string value) :
  processable env art = true ->
  exists h s i,
    hours_ago_of env art = Some h
    /\ Qeq_bool h (-8) = false
    /\ read_sentiment env art = Ret s
    /\ read_impact env art = Ret i
    /\ (truthy (get art "sentiment_score") = false -> s = 0.0)
    /\ (truthy (get art "impact_score") = false -> i = 0.5)
    /\ NewsSentimentStrategy.article_terms env (Aware (utcnow env)) art
       = Ret (s, i * max2 0.1 (1.0 / (1.0 + h / 8.0))).
Proof.
  unfold processable, timely. intros H.
  apply andb_prop in H as [H Hh]. apply andb_prop in H as [Hs Hi].
  destruct (hours_ago_of env art) as [h |] eqn:Eh; [| discriminate].
  apply negb_true_iff in Hh.
  destruct (float_coercible _ 0.0 Hs) as (s & Es & Ds).
  destruct (float_coercible _ 0.5 Hi) as (i & Ei & Di).
  exists h, s, i. repeat (split; [assumption || reflexivity |]).
  unfold NewsSentimentStrategy.article_terms. rewrite Es, Ei.
  cbn [mbind outcome_bind]. exact (recency_timely art h Eh Hh s i).
Qed.

(** On an unprocessable row the loop body raises. *)
Lemma article_terms_unprocessable (art : gmap string value) :
  unprocessable env art = true ->
  exists e,
    NewsSentimentStrategy.article_terms env (Aware (utcnow env)) art = Raise e.
Proof.
  unfold unprocessable. intros H.
  unfold NewsSentimentStrategy.article_terms.
  destruct (rejected env (get art "sentiment_score")) eqn:Rs.
  { destruct (float_rejected _ 0.0 Rs) as [e ->]. exists e. reflexivity. }
  destruct (Py.float _ (py_or (get art "sentiment_score") _)) as [s | e];
    cbn [mbind outcome_bind]; [| exists e; reflexivity].
  destruct (rejected env (get art "impact_score")) eqn:Ri.
  { destruct (float_rejected _ 0.5 Ri) as [e ->]. exists e. reflexivity. }
  destruct (Py.float _ (py_or (get art "impact_score") _)) as [i | e];
    cbn [mbind outcome_bind]; [| exists e; reflexivity].
  simpl in H. apply negb_true_iff in H.
  exact (recency_untimely art H s i).
Qed.

(** One row on which the body raises stops the whole loop. *)
Lemma aggregate_loop_raises (now : datetime) (articles : list (gmap string value))
    (art : gmap string value) :
  In art articles ->
  (exists e, NewsSentimentStrategy.article_terms env now art = Raise e) ->
  forall weighted_sum weight_total,
  exists e,
    NewsSentimentStrategy.aggregate_loop env now articles weighted_sum weight_total
    = Raise e.
Proof.
  intros Hin Hart. induction articles as [| a rest IH]; [destruct Hin |].
  intros ws0 wt0. simpl.
  destruct (NewsSentimentStrategy.article_terms env now a) as [t | e] eqn:Et;
    cbn [mbind outcome_bind]; [| exists e; reflexivity].
  destruct Hin as [-> | Hin].
  - destruct Hart as [e He]. congruence.
  - apply IH, Hin.
Qed.

Lemma aggregate_raises (articles : list (gmap string value))
    (art : gmap string value) :
  In art articles ->
  unprocessable env art = true ->
  exists e, NewsSentimentStrategy._aggregate_sentiment env articles = Raise e.
Proof.
  intros Hin Hun. unfold NewsSentimentStrategy._aggregate_sentiment.
  destruct articles as [| a rest]; [destruct Hin |].
  destruct (aggregate_loop_raises (Aware (utcnow env)) (a :: rest) art Hin
              (article_terms_unprocessable art Hun) 0.0 0.0) as [e ->].
  exists e. reflexivity.
Qed.

(** The weight the specification gives to an item read from a
    processable row is the one the loop computes. *)
Lemma article_terms_item (art : gmap string value) :
  processable env art = true ->
  exists s w,
    NewsSentimentStrategy.article_terms env (Aware (utcnow env)) art = Ret (s, w)
    /\ s == Spec.sentiment (read_item env art)
    /\ w == Spec.weight (read_item env art).
Proof.
  intros Hp.
  destruct (article_terms_processable art Hp)
    as (h & s & i & Eh & _ & Es & Ei & _ & _ & Et).
  eexists _, _. split; [exact Et |].
  unfold Spec.weight, Spec.recency_weight, read_item. simpl.
  rewrite Es, Ei, Eh. simpl. rewrite recency_weight_spec.
  split; reflexivity.
Qed.

(** The loop over processable rows adds up the specification's sums, in
    the order of the rows. *)
Lemma aggregate_loop_processable (articles : list (gmap string value)) :
  forallb (processable env) articles = true ->
  forall weighted_sum weight_total,
  exists ws wt,
    NewsSentimentStrategy.aggregate_loop env (Aware (utcnow env)) articles
      weighted_sum weight_total = Ret (ws, wt)
    /\ ws == weighted_sum
             + Spec.total (map (fun it => Spec.sentiment it * Spec.weight it)
                               (map (read_item env) articles))
    /\ wt == weight_total
             + Spec.total (map Spec.weight (map (read_item env) articles)).
Proof.
  induction articles as [| art rest IH]; intros Hall ws0 wt0.
  - exists ws0, wt0. simpl. repeat split; ring.
  - simpl in Hall. apply andb_prop in Hall as [Hart Hrest].
    destruct (article_terms_item art Hart) as (s & w & Et & Hs & Hw).
    destruct (IH Hrest (ws0 + s * w) (wt0 + w)) as (ws & wt & El & Hws & Hwt).
    exists ws, wt. simpl. rewrite Et. simpl. split; [exact El |]. split.
    + rewrite Hws, Hs, Hw. simpl. ring.
    + rewrite Hwt, Hw. ring.
Qed.

Lemma least_impact_positive : 0 < least_impact.
Proof. reflexivity. Qed.

(** Within the ranges of the data model every weight is positive. *)
Lemma weight_in_range (art : gmap string value) :
  processable env art = true ->
  within_ranges env art = true ->
  0 < Spec.weight (read_item env art).
Proof.
  intros Hp Hr.
  destruct (article_terms_processable art Hp)
    as (h & s & i & Eh & _ & Es & Ei & _ & _ & _).
  unfold within_ranges in Hr. rewrite Es, Ei in Hr.
  apply andb_prop in Hr as [Hr _]. apply andb_prop in Hr as [_ Hi].
  apply andb_prop in Hi as [Hi _]. apply Qle_bool_iff in Hi.
  unfold Spec.weight, Spec.recency_weight, read_item. simpl. rewrite Ei.
  pose proof least_impact_positive as Hl.
  pose proof (Q.le_max_l 0.1 (1 / (1 + default 0 (hours_ago_of env art) / 8))) as Hm.
  set (m := Qmax _ _) in *. nra.
Qed.

Lemma total_weight_in_range (articles : list (gmap string value)) :
  forallb (processable env) articles = true ->
  forallb (within_ranges env) articles = true ->
  0 <= Spec.total (map Spec.weight (map (read_item env) articles)).
Proof.
  induction articles as [| art rest IH]; simpl; [lra |].
  intros Hp Hr. apply andb_prop in Hp as [Hp Hps]. apply andb_prop in Hr as [Hr Hrs].
  pose proof (weight_in_range art Hp Hr). specialize (IH Hps Hrs). lra.
Qed.

(** On processable rows [_aggregate_sentiment] returns; within the ranges
    of the data model its value is the weighted average of the
    specification. *)
Lemma aggregate_processable (articles : list (gmap string value)) :
  forallb (processable env) articles = true ->
  exists avg,
    NewsSentimentStrategy._aggregate_sentiment env articles = Ret avg
    /\ (forallb (within_ranges env) articles = true ->
        avg == Spec.weighted_average (map (read_item env) articles)).
Proof.
  intros Hall. destruct articles as [| art rest].
  - exists 0.0. split; [reflexivity | intros _; reflexivity].
  - destruct (aggregate_loop_processable (art :: rest) Hall 0.0 0.0)
      as (ws & wt & El & Hws & Hwt).
    unfold NewsSentimentStrategy._aggregate_sentiment. rewrite El.
    eexists. split; [reflexivity |]. intros Hr.
    pose proof (total_weight_in_range (art :: rest) Hall Hr) as Hnn.
    unfold Spec.weighted_average. cbv zeta.
    set (tw := Spec.total (map Spec.weight (map (read_item env) (art :: rest)))) in *.
    set (ts := Spec.total (map _ (map (read_item env) (art :: rest)))) in *.
    destruct (Qeq_bool tw 0) eqn:E.
    + apply Qeq_bool_iff in E.
      assert (Qltb 0 wt = false) as -> by (apply Qltb_ge; lra). reflexivity.
    + apply Qeq_bool_neq in E.
      assert (Qltb 0 wt = true) as ->.
      { apply Qltb_lt. destruct (Qlt_le_dec 0 tw); [lra |].
        exfalso. apply E. lra. }
      apply Qdiv_comp; [rewrite Hws | rewrite Hwt]; ring.
Qed.

End Processing.

(** ** Indicators: [highest_high] *)

Section HighestHigh.

Lemma fold_max2_maximum (rest : list Q) (x : Q) :
  fold_left max2 rest x ∈ x :: rest
  /\ x <= fold_left max2 rest x
  /\ Forall (fun y => y <= fold_left max2 rest x) rest.
Proof.
  revert x. induction rest as [| y rest IH]; intros x; simpl.
  - split; [left | split; [lra | constructor]].
  - destruct (IH (max2 x y)) as (Hin & Hle & Hall).
    pose proof (max2_lower x y) as [Hx Hy].
    split; [| split].
    + apply elem_of_cons in Hin as [-> | Hin].
      * unfold max2. destruct (Qltb x y); [right; left | left].
      * right; right; exact Hin.
    + lra.
    + constructor; [lra | exact Hall].
Qed.

Lemma max_of_maximum (xs : list Q) :
  xs <> [] -> exists m, max_of xs = Ret m /\ Spec.is_maximum m xs.
Proof.
  destruct xs as [| x rest]; [congruence | intros _].
  destruct (fold_max2_maximum rest x) as (Hin & Hle & Hall).
  eexists. split; [reflexivity |]. split; [exact Hin |].
  constructor; assumption.
Qed.

Lemma trailing_drop {A} (n : nat) (xs : list A) :
  Spec.trailing n xs = drop (length xs - n) xs.
Proof. unfold Spec.trailing. rewrite firstn_rev, rev_involutive. reflexivity. Qed.

Lemma last_n_trailing {A} (n : nat) (xs : list A) :
  (0 < n)%nat -> last_n n xs = Spec.trailing n xs.
Proof.
  intros Hn. rewrite trailing_drop. destruct n; [lia | reflexivity].
Qed.

(** Two maxima of the same sequence are equal as numbers, and the maximum
    of a part never exceeds the maximum of the whole. *)
Lemma maximum_monotone (m M : Q) (part whole : list Q) :
  part ⊆ whole -> Spec.is_maximum m part -> Spec.is_maximum M whole -> m <= M.
Proof.
  intros Hsub [Hin _] [_ Hall].
  rewrite Forall_forall in Hall. apply Hall, Hsub, Hin.
Qed.

Lemma highest_high_trailing (candles : list Candle) (lookback : nat) :
  candles <> [] -> (0 < lookback)%nat ->
  exists m,
    highest_high candles lookback = Ret m
    /\ Spec.is_maximum m (map high (Spec.trailing lookback candles)).
Proof.
  intros Hne Hpos. unfold highest_high.
  destruct (length candles <? lookback)%nat eqn:E.
  - apply Nat.ltb_lt in E.
    assert (Spec.trailing lookback candles = candles) as ->.
    { rewrite trailing_drop. replace (length candles - lookback)%nat with 0%nat by lia.
      reflexivity. }
    apply max_of_maximum. destruct candles; [congruence | discriminate].
  - apply Nat.ltb_ge in E. rewrite last_n_trailing by assumption.
    apply max_of_maximum. rewrite trailing_drop.
    intros Hnil. apply (f_equal length) in Hnil.
    rewrite length_map, length_drop in Hnil. simpl in Hnil.
    destruct candles; [congruence | simpl in *; lia].
Qed.

End HighestHigh.

(** ** Indicators: [compute_rsi] against Wilder's definition *)

Section RSI.

Lemma np_diff_differences (closes : list Q) :
  np_diff closes = Spec.differences closes.
Proof.
  unfold np_diff. induction closes as [| a [| b rest] IH]; try reflexivity.
  simpl in IH |- *. rewrite IH. reflexivity.
Qed.

Lemma gain_spec (d : Q) : (if Qltb 0 d then d else 0.0) == Spec.gain d.
Proof.
  unfold Spec.gain. destruct (Qltb 0 d) eqn:E.
  - apply Qltb_lt in E. symmetry. apply Q.max_l. lra.
  - apply Qltb_ge in E. rewrite Q.max_r by lra. reflexivity.
Qed.

Lemma loss_spec (d : Q) : (if Qltb d 0 then - d else 0.0) == Spec.loss d.
Proof.
  unfold Spec.loss. destruct (Qltb d 0) eqn:E.
  - apply Qltb_lt in E. symmetry. apply Q.max_l. lra.
  - apply Qltb_ge in E. rewrite Q.max_r by lra. reflexivity.
Qed.

Lemma sum_total (xs ys : list Q) :
  Forall2 Qeq xs ys -> Py.sum xs == Spec.total ys.
Proof.
  unfold Py.sum. intros H.
  assert (G : forall acc, fold_left Qplus xs acc == acc + Spec.total ys).
  { induction H as [| x y xs ys Hxy _ IH]; intros acc; simpl.
    - ring.
    - rewrite IH, Hxy. ring. }
  rewrite G. ring.
Qed.

Lemma wilder_comp (period : nat) (xs ys : list Q) :
  Forall2 Qeq xs ys ->
  forall a b, a == b -> Spec.wilder period a xs == Spec.wilder period b ys.
Proof.
  induction 1 as [| x y xs ys Hxy _ IH]; intros a b Hab; simpl.
  - exact Hab.
  - apply IH. rewrite Hab, Hxy. reflexivity.
Qed.

Lemma inject_Z_pred (z : Z) : inject_Z (z - 1) == inject_Z z - 1.
Proof. unfold Z.sub. rewrite inject_Z_plus. reflexivity. Qed.

(** The index loop of the code is Wilder's recurrence over the values
    from [start] on. *)
Lemma smoothing_loop (period : nat) (gains losses gains' losses' : list Q) :
  Forall2 Qeq gains gains' -> Forall2 Qeq losses losses' ->
  forall n start g l g' l',
    g == g' -> l == l' ->
    (start + n <= length gains)%nat -> (start + n <= length losses)%nat ->
    fst (fold_left (rsi_step gains losses period) (seq start n) (g, l))
      == Spec.wilder period g' (take n (drop start gains'))
    /\ snd (fold_left (rsi_step gains losses period) (seq start n) (g, l))
      == Spec.wilder period l' (take n (drop start losses')).
Proof.
  intros Hg Hl. induction n as [| n IH]; intros start g l g' l' Eg El Lg Ll.
  - simpl. split; assumption.
  - pose proof (Forall2_length _ _ _ Hg) as Lg'.
    pose proof (Forall2_length _ _ _ Hl) as Ll'.
    destruct (lookup_lt_is_Some_2 gains' start ltac:(lia)) as [vg Hvg].
    destruct (lookup_lt_is_Some_2 losses' start ltac:(lia)) as [vl Hvl].
    destruct (lookup_lt_is_Some_2 gains start ltac:(lia)) as [ug Hug].
    destruct (lookup_lt_is_Some_2 losses start ltac:(lia)) as [ul Hul].
    assert (Eug : nth start gains 0 == vg).
    { rewrite (nth_lookup_Some _ _ _ _ Hug).
      exact (Forall2_lookup_lr Qeq _ _ _ _ _ Hg Hug Hvg). }
    assert (Eul : nth start losses 0 == vl).
    { rewrite (nth_lookup_Some _ _ _ _ Hul).
      exact (Forall2_lookup_lr Qeq _ _ _ _ _ Hl Hul Hvl). }
    rewrite (drop_S _ _ _ Hvg), (drop_S _ _ _ Hvl).
    cbn [seq fold_left take Spec.wilder].
    apply IH; try lia.
    + unfold rsi_step. cbn [fst]. rewrite Eg, Eug, inject_Z_pred. reflexivity.
    + unfold rsi_step. cbn [snd]. rewrite El, Eul, inject_Z_pred. reflexivity.
Qed.

Lemma length_differences (closes : list Q) :
  length (Spec.differences closes) = (length closes - 1)%nat.
Proof.
  induction closes as [| a [| b rest] IH]; try reflexivity.
  change (Spec.differences (a :: b :: rest))
    with ((b - a) :: Spec.differences (b :: rest)).
  simpl length in IH |- *. rewrite IH. lia.
Qed.

Lemma seed_spec (period : nat) (xs ys : list Q) :
  Forall2 Qeq xs ys -> (period <= length xs)%nat ->
  np_mean (take period xs)
  == Spec.total (take period ys) / inject_Z (Z.of_nat period).
Proof.
  intros H Hlen. unfold np_mean.
  rewrite length_take, Nat.min_l by exact Hlen.
  apply Qdiv_comp; [| reflexivity].
  apply sum_total, Forall2_take, H.
Qed.

(** Beyond the short-input case the code computes Wilder's RSI. *)
Lemma compute_rsi_spec (closes : list Q) (period : nat) :
  compute_rsi closes period == Spec.rsi closes period.
Proof.
  unfold compute_rsi, Spec.rsi.
  destruct (length closes <? period + 1)%nat eqn:E; [reflexivity |].
  apply Nat.ltb_ge in E. cbv zeta. rewrite np_diff_differences.
  set (delta := Spec.differences closes).
  assert (Hlen : length delta = (length closes - 1)%nat)
    by apply length_differences.
  set (gains := map (fun d => if Qltb 0 d then d else 0.0) delta).
  set (losses := map (fun d => if Qltb d 0 then - d else 0.0) delta).
  assert (Hg : Forall2 Qeq gains (map Spec.gain delta)).
  { subst gains. apply Forall2_fmap, Forall_Forall2_diag, Forall_forall.
    intros x _. apply gain_spec. }
  assert (Hl : Forall2 Qeq losses (map Spec.loss delta)).
  { subst losses. apply Forall2_fmap, Forall_Forall2_diag, Forall_forall.
    intros x _. apply loss_spec. }
  pose proof (Forall2_length _ _ _ Hg) as Lg.
  pose proof (Forall2_length _ _ _ Hl) as Ll.
  rewrite length_map in Lg, Ll.
  destruct (smoothing_loop period gains losses _ _ Hg Hl
              (length delta - period) period
              (np_mean (take period gains)) (np_mean (take period losses))
              _ _
              (seed_spec period _ _ Hg ltac:(lia))
              (seed_spec period _ _ Hl ltac:(lia))
              ltac:(lia) ltac:(lia)) as [Eg El].
  rewrite (take_ge (drop period (map Spec.gain delta))) in Eg
    by (rewrite length_drop, length_map; lia).
  rewrite (take_ge (drop period (map Spec.loss delta))) in El
    by (rewrite length_drop, length_map; lia).
  destruct (fold_left _ _ _) as [avg_gain avg_loss]. cbn [fst snd] in Eg, El.
  fold (Spec.smoothed period (map Spec.gain delta)) in Eg.
  fold (Spec.smoothed period (map Spec.loss delta)) in El.
  rewrite (Qeqb_comp _ _ El 0 0 (Qeq_refl 0)).
  destruct (Qeq_bool _ 0); [reflexivity |].
  rewrite Eg, El. reflexivity.
Qed.

End RSI.

(** ** Results of the combinations *)

Section CombinationResults.

Variables (c : Combination) (symbol : string) (candles : list Candle)
          (env : Env).

(** A combination that returns with enough candles has evaluated its
    technical condition and obtained a news result. *)
Lemma combination_inversion (log log' : list query) (r : StrategyResult) :
  (Spec.min_history c <= length candles)%nat ->
  generate_signal (Combined c) symbol candles env log = (Ret r, log') ->
  exists b nr avg,
    Spec.technical_condition c candles = Ret b
    /\ NewsSentimentStrategy.generate_signal (news_of c) symbol candles env log
       = (Ret nr, log')
    /\ extra nr !! "avg_sentiment" = Some (VNum avg)
    /\ assembled b avg (confidence nr) r.
Proof.
  intros Hlen Hrun.
  destruct (Spec.technical_condition c candles) as [b | e] eqn:Htech.
  - destruct (NewsSentimentStrategy.generate_signal (news_of c) symbol candles env log)
      as [[nr | e] l] eqn:Hnews.
    + destruct (news_avg_field _ _ _ _ _ _ _ Hnews) as [avg Havg].
      destruct (combination_run c symbol candles env log l b nr avg
                  Hlen Htech Hnews Havg) as (r' & Hrun' & Hasm).
      rewrite Hrun' in Hrun. injection Hrun as <- <-.
      exists b, nr, avg. repeat split; try assumption; apply Hasm.
    + rewrite (combination_raise_news c symbol candles env log l b e
                 Hlen Htech Hnews) in Hrun. discriminate.
  - rewrite (combination_raise_tech c symbol candles env log e Hlen Htech) in Hrun.
    discriminate.
Qed.

Lemma signal_of_cases (b : bool) (n : Q) :
  signal_of b n = "BUY" \/ signal_of b n = "HOLD".
Proof. unfold signal_of. destruct (b && _); [left | right]; reflexivity. Qed.

(** With well-formed parameters and enough candles the technical
    condition is defined. *)
Lemma technical_condition_defined :
  Spec.well_configured c = true ->
  (Spec.min_history c <= length candles)%nat ->
  exists b, Spec.technical_condition c candles = Ret b.
Proof.
  intros Hcfg Hlen.
  destruct c as [self | self | self];
    unfold Spec.technical_condition, Spec.well_configured, Spec.min_history in *.
  - eexists. reflexivity.
  - apply Nat.ltb_lt in Hcfg.
    assert (Hlast : exists x, last_item candles = Ret x).
    { unfold last_item. destruct (last candles) eqn:E; [eexists; reflexivity |].
      apply last_None in E. subst candles. simpl in Hlen. lia. }
    destruct Hlast as [x ->]. simpl.
    destruct (highest_high_trailing (but_last candles)
                (NewsBreakoutCombo.lookback self)) as (m & -> & _).
    + intros Hnil. apply (f_equal length) in Hnil. unfold but_last in Hnil.
      rewrite length_take in Hnil. simpl in Hnil. lia.
    + exact Hcfg.
    + eexists. reflexivity.
  - apply Nat.ltb_lt in Hcfg.
    unfold simple_ma. rewrite length_map.
    assert ((length candles <? NewsTrendMA200Combo.ma_period self)%nat = false) as ->
      by (apply Nat.ltb_ge; lia).
    unfold Py.div.
    assert (Qeq_bool (inject_Z (Z.of_nat (NewsTrendMA200Combo.ma_period self))) 0
            = false) as ->.
    { destruct (Qeq_bool _ 0) eqn:E; [| reflexivity].
      apply Qeq_bool_iff in E. unfold Qeq in E. simpl in E. lia. }
    cbn [mbind outcome_bind].
    assert (Hlast : exists x, last_item candles = Ret x).
    { unfold last_item. destruct (last candles) eqn:E; [eexists; reflexivity |].
      apply last_None in E. subst candles. simpl in Hlen. lia. }
    destruct Hlast as [x ->]. cbn [mbind outcome_bind].
    destruct (max_of_maximum (last_n 20 (map close candles))) as (m & -> & _).
    + intros Hnil. apply (f_equal length) in Hnil. unfold last_n in Hnil.
      rewrite length_drop, length_map in Hnil. simpl in Hnil. lia.
    + eexists. reflexivity.
Qed.

(** With well-formed parameters and rows the loop can process a
    combination returns a result, whatever the number of candles. *)
Lemma combination_returns (log : list query) :
  Spec.well_configured c = true ->
  forallb (processable env) (fetched env (news_of c) symbol) = true ->
  exists r log',
    generate_signal (Combined c) symbol candles env log = (Ret r, log').
Proof.
  intros Hcfg Hall.
  destruct (Nat.lt_ge_cases (length candles) (Spec.min_history c)) as [Hs | Hl].
  - rewrite (combination_short c symbol candles env log Hs). eexists _, _. reflexivity.
  - destruct (technical_condition_defined Hcfg Hl) as [b Htech].
    assert (Hnews : exists nr,
               NewsSentimentStrategy.generate_signal (news_of c) symbol candles env log
               = (Ret nr, log ++ [news_query env (news_of c) symbol])).
    { rewrite news_run. cbv zeta.
      destruct (_ <? _)%nat; [eexists; reflexivity |].
      destruct (aggregate_processable env _ Hall) as (avg & -> & _).
      eexists. reflexivity. }
    destruct Hnews as [nr Hnews].
    destruct (news_avg_field _ _ _ _ _ _ _ Hnews) as [avg Havg].
    destruct (combination_run c symbol candles env log _ b nr avg
                Hl Htech Hnews Havg) as (r & Hrun & _).
    eexists _, _. exact Hrun.
Qed.

(** The safety net of the runner leaves every returned signal as it is. *)
Lemma normalize_signal_type_noop (log log' : list query) (r : StrategyResult) :
  generate_signal (Combined c) symbol candles env log = (Ret r, log') ->
  normalize_signal_type (signal_type r) = signal_type r.
Proof.
  intros Hrun.
  destruct (Nat.lt_ge_cases (length candles) (Spec.min_history c)) as [Hs | Hl].
  - rewrite (combination_short c symbol candles env log Hs) in Hrun.
    injection Hrun as <- _. reflexivity.
  - destruct (combination_inversion log log' r Hl Hrun)
      as (b & nr & avg & _ & _ & _ & Hsig & _).
    rewrite Hsig. destruct (signal_of_cases b (normalized_of b avg (confidence nr)))
      as [-> | ->]; reflexivity.
Qed.

End CombinationResults.

(** ** The model on small inputs *)

Example round_examples :
  Py.round 0.2 3 == 0.2 /\ Py.round (2 # 3) 3 == 0.667
  /\ Py.round 0.0005 3 == 0 /\ Py.round 0.0015 3 == 0.002
  /\ Py.round (-0.7) 3 == -0.7 /\ Py.round (-0.0015) 3 == -0.002.
Proof. repeat split; vm_compute; reflexivity. Qed.

Example rsi_short : compute_rsi [1; 2; 3] 14 = 50.0.
Proof. reflexivity. Qed.

Example rsi_rising : compute_rsi (map inject_Z [1; 2; 3; 4; 5; 6]%Z) 3 = 100.0.
Proof. vm_compute. reflexivity. Qed.

Example rsi_falling : compute_rsi (map close (Scenario.falling 15)) 14 == 0.
Proof. vm_compute. reflexivity. Qed.

Example rsi_mixed :
  compute_rsi [10; 11; 10; 12; 11] 2 == 50
  /\ compute_rsi [10; 12; 11; 14] 2 == 800 # 9.
Proof. split; vm_compute; reflexivity. Qed.

Example simple_ma_examples :
  simple_ma [] 5 = Ret 0.0
  /\ simple_ma [1; 2] 5 = Ret 2
  /\ (exists x, simple_ma [1; 2; 3; 4] 2 = Ret x /\ x == 3.5)
  /\ simple_ma [1; 2; 3] 0 = Raise ZeroDivisionError.
Proof.
  repeat split; try reflexivity.
  eexists. split; [reflexivity | vm_compute; reflexivity].
Qed.

(** [candles[-0:]] is the whole list: a lookback of 0 looks at everything. *)
Example highest_high_examples :
  highest_high (Scenario.falling 3) 2 = Ret 99
  /\ highest_high (Scenario.falling 3) 7 = Ret 100
  /\ highest_high (Scenario.falling 3) 0 = Ret 100.
Proof. repeat split; vm_compute; reflexivity. Qed.

(** [0 or 0.5] is [0.5]: an impact of zero is read as the default. *)
Example zero_impact_reads_as_default :
  read_impact (Scenario.world []) {[ "impact_score" := VNum 0 ]} = Ret 0.5
  /\ read_impact (Scenario.world []) {[ "impact_score" := VNum 0.25 ]} = Ret 0.25
  /\ read_sentiment (Scenario.world []) ∅ = Ret 0.0.
Proof. repeat split; reflexivity. Qed.

Example replace_Z_example :
  replace_Z "1970-01-01T08:00:00Z" = "1970-01-01T08:00:00+00:00".
Proof. reflexivity. Qed.

Example registry : length build_combined_strategies = 3%nat.
Proof. reflexivity. Qed.

Example bullish_run :
  signal_type Scenario.rsi_bullish = "BUY"
  /\ confidence Scenario.rsi_bullish == 0.912
  /\ signal_type Scenario.news_bullish = "BUY"
  /\ confidence Scenario.news_bullish == 0.5
  /\ length Scenario.the_query = 1%nat.
Proof. repeat split; vm_compute; reflexivity. Qed.

Example processable_examples :
  forallb (processable (lenient_world sloppy)) sloppy = true
  /\ processable (Scenario.world []) {[ "sentiment_score" := VInt (10 ^ 400) ]} = false
  /\ unprocessable (Scenario.world []) {[ "sentiment_score" := VStr "n/a" ]} = true
  /\ unprocessable (Scenario.world [])
       (Scenario.article 0.5 1 Scenario.eight_hours_ahead) = true
  /\ forallb (within_ranges (Scenario.world [])) Scenario.bullish = true
  /\ within_ranges (Scenario.world []) (Scenario.article 0.5 0 Scenario.now) = false.
Proof. repeat split; vm_compute; reflexivity. Qed.

(** * The claims *)

(** C1.  Whatever the symbol, the candles and the news rows, a result
    returned by [generate_signal] of the news-sentiment strategy or of one
    of the three combinations carries the signal type ["BUY"] or ["HOLD"];
    ["SELL"] is never produced. *)
Theorem C1_signal_type_buy_or_hold (strat : Strategy) (symbol : string)
    (candles : list Candle) (env : Env) (log log' : list query)
    (r : StrategyResult) :
  generate_signal strat symbol candles env log = (Ret r, log') ->
  (signal_type r = "BUY" \/ signal_type r = "HOLD") /\ signal_type r <> "SELL".
Proof.
  intros Hrun.
  assert (H : signal_type r = "BUY" \/ signal_type r = "HOLD").
  { destruct strat as [self | c].
    - exact (news_signal_type self symbol candles env log log' r Hrun).
    - destruct (Nat.lt_ge_cases (length candles) (Spec.min_history c)) as [Hs | Hl].
      + rewrite (combination_short c symbol candles env log Hs) in Hrun.
        injection Hrun as <- _. right. reflexivity.
      + destruct (combination_inversion c symbol candles env log log' r Hl Hrun)
          as (b & nr & avg & _ & _ & _ & Hsig & _).
        rewrite Hsig. apply signal_of_cases. }
  split; [exact H |]. destruct H as [-> | ->]; discriminate.
Qed.

Lemma C1_witness :
  Scenario.rsi_run Scenario.bullish = (Ret Scenario.rsi_bullish, Scenario.the_query)
  /\ ((signal_type Scenario.rsi_bullish = "BUY"
       \/ signal_type Scenario.rsi_bullish = "HOLD")
      /\ signal_type Scenario.rsi_bullish <> "SELL").
Proof.
  assert (H : Scenario.rsi_run Scenario.bullish
              = (Ret Scenario.rsi_bullish, Scenario.the_query))
    by (vm_compute; reflexivity).
  split; [exact H |].
  exact (C1_signal_type_buy_or_hold _ _ _ _ _ _ _ H).
Defined.

(** C4.  With fewer candles than the variant's minimum history each
    combination returns HOLD with confidence 0.1 and
    [extra = {reason: "not_enough_candles"}]; the query log is unchanged,
    so the news table is not consulted and the result does not depend on
    the world. *)
Theorem C4_not_enough_candles (c : Combination) (symbol : string)
    (candles : list Candle) (env : Env) (log : list query) :
  (length candles < Spec.min_history c)%nat ->
  generate_signal (Combined c) symbol candles env log
  = (Ret {| signal_type := "HOLD";
            confidence := 0.1;
            extra := {[ "reason" := VStr "not_enough_candles" ]} |},
     log).
Proof. exact (combination_short c symbol candles env log). Qed.

Lemma C4_witness :
  (length (Scenario.falling 14) < Spec.min_history Scenario.rsi_combo)%nat
  /\ generate_signal (Combined Scenario.rsi_combo) "AAPL" (Scenario.falling 14)
       (Scenario.world Scenario.bullish) []
     = (Ret {| signal_type := "HOLD";
               confidence := 0.1;
               extra := {[ "reason" := VStr "not_enough_candles" ]} |},
        []).
Proof.
  assert (H : (length (Scenario.falling 14) < Spec.min_history Scenario.rsi_combo)%nat)
    by (vm_compute; lia).
  split; [exact H |].
  exact (C4_not_enough_candles _ _ _ _ _ H).
Defined.





(** C2, as the code has it.  The confidence of a returned result lies in
    [0, 1] for the news-sentiment strategy on every input, and for the
    three combinations whenever every fetched article has a sentiment in
    [-1, 1] and an impact that is not negative. *)
Theorem C2_confidence_in_unit_interval (strat : Strategy) (symbol : string)
    (candles : list Candle) (env : Env) (log log' : list query)
    (r : StrategyResult) :
  (forall c, strat = Combined c ->
     forallb (within_data_model env) (fetched env (news_of c) symbol) = true) ->
  generate_signal strat symbol candles env log = (Ret r, log') ->
  0 <= confidence r /\ confidence r <= 1.
Proof.
  intros Hrange Hrun. destruct strat as [self | c].
  - exact (news_confidence_unit self symbol candles env log log' r Hrun).
  - specialize (Hrange c eq_refl).
    destruct (Nat.lt_ge_cases (length candles) (Spec.min_history c)) as [Hs | Hl].
    + rewrite (combination_short c symbol candles env log Hs) in Hrun.
      injection Hrun as <- _. simpl. split; lra.
    + destruct (combination_inversion c symbol candles env log log' r Hl Hrun)
        as (b & nr & avg & _ & Hnews & Havg & _ & Hconf & _).
      assert (Ha : avg <= 1).
      { apply news_inversion in Hnews
          as [_ [(_ & _ & _ & Ha & _) | (_ & a & Hagg & _ & _ & Ha)]];
          rewrite Havg in Ha; injection Ha as ->; [lra |].
        destruct (aggregate_bounded env _ a Hrange Hagg) as [_ Hhi].
        pose proof (round3_upper 1000 a) as Hr. unfold inject_Z in Hr. lra. }
      rewrite Hconf. unfold confidence_of. apply round3_unit;
        destruct (String.eqb _ _); try lra;
        apply (normalized_of_unit avg (confidence nr) b Ha).
Qed.

Lemma C2_witness :
  0 <= confidence Scenario.rsi_bullish /\ confidence Scenario.rsi_bullish <= 1.
Proof.
  apply (C2_confidence_in_unit_interval (Combined Scenario.rsi_combo) "AAPL"
           (Scenario.falling 15) (Scenario.world Scenario.bullish) []
           Scenario.the_query Scenario.rsi_bullish).
  - intros c [= <-]. vm_compute. reflexivity.
  - vm_compute. reflexivity.
Defined.

(** C2 as stated fails: two articles with sentiment 5 drive the RSI
    combination to BUY with confidence 2.2. *)
Lemma C2_counterexample :
  Scenario.rsi_run Scenario.euphoric
    = (Ret Scenario.rsi_euphoric, Scenario.the_query)
  /\ signal_type Scenario.rsi_euphoric = "BUY"
  /\ confidence Scenario.rsi_euphoric == 2.2
  /\ ~ confidence Scenario.rsi_euphoric <= 1.
Proof.
  split; [vm_compute; reflexivity |].
  split; [reflexivity |].
  split; [vm_compute; reflexivity |].
  vm_compute. intros H. apply H. reflexivity.
Qed.




(** C7, as the code has it.  A score that is absent, [None] or any other
    falsy value ([False], a zero, [""], [[]], [{}]) is replaced by the
    default, 0.0 for the sentiment and 0.5 for the impact; [True], a
    float, an [int] within the range of a float and a string the parser
    reads are converted.  When every fetched row has such scores and a
    timestamp that is not a string or is an offset-aware instant other
    than eight hours ahead of the clock, the strategy returns.  Nothing
    else is tolerated: with at least [min_articles] rows, one row with a
    non-empty string the parser refuses, a non-empty list or dictionary,
    or a timestamp that cannot be used, makes the strategy raise. *)
Theorem C7_absent_scores_take_defaults (self : NewsSentimentStrategy.t)
    (symbol : string) (candles : list Candle) (env : Env) (log : list query) :
  (forallb (processable env) (fetched env self symbol) = true ->
   exists r,
     generate_signal (NewsSentiment self) symbol candles env log
     = (Ret r, log ++ [news_query env self symbol]))
  /\ (forall art, processable env art = true ->
      exists s w h,
        NewsSentimentStrategy.article_terms env (Aware (utcnow env)) art = Ret (s, w)
        /\ hours_ago_of env art = Some h
        /\ (get art "sentiment_score" = VNone -> s = 0.0)
        /\ (get art "impact_score" = VNone ->
            w = 0.5 * max2 0.1 (1.0 / (1.0 + h / 8.0)))
        /\ (truthy (get art "sentiment_score") = false -> s = 0.0)
        /\ (truthy (get art "impact_score") = false ->
            w = 0.5 * max2 0.1 (1.0 / (1.0 + h / 8.0))))
  /\ ((NewsSentimentStrategy.min_articles self <= length (fetched env self symbol))%nat ->
      (exists art, In art (fetched env self symbol) /\ unprocessable env art = true) ->
      exists e,
        generate_signal (NewsSentiment self) symbol candles env log
        = (Raise e, log ++ [news_query env self symbol])).
Proof.
  split; [| split].
  - intros Hall. simpl. rewrite news_run. cbv zeta.
    destruct (_ <? _)%nat; [eexists; reflexivity |].
    destruct (aggregate_processable env _ Hall) as (avg & -> & _).
    eexists. reflexivity.
  - intros art Hp.
    destruct (article_terms_processable env art Hp)
      as (h & s & i & Eh & _ & _ & _ & Ds & Di & Et).
    exists s, (i * max2 0.1 (1.0 / (1.0 + h / 8.0))), h.
    split; [exact Et |]. split; [exact Eh |].
    split; [intros E; apply Ds; rewrite E; reflexivity |].
    split; [intros E; rewrite Di by (rewrite E; reflexivity); reflexivity |].
    split; [exact Ds |].
    intros E. rewrite (Di E). reflexivity.
  - intros Hlong (art & Hin & Hun). apply Nat.ltb_ge in Hlong.
    simpl. rewrite news_run. cbv zeta. rewrite Hlong.
    destruct (aggregate_raises env _ art Hin Hun) as [e ->].
    exists e. reflexivity.
Qed.

Lemma C7_witness :
  exists r,
    generate_signal (NewsSentiment Scenario.news) "AAPL" [] (lenient_world sloppy) []
    = (Ret r, [] ++ [news_query (lenient_world sloppy) Scenario.news "AAPL"]).
Proof.
  apply (proj1 (C7_absent_scores_take_defaults Scenario.news "AAPL" []
                  (lenient_world sloppy) [])).
  vm_compute. reflexivity.
Defined.

(** C7 as stated fails: a sentiment that is a word makes [float] raise. *)
Lemma C7_counterexample :
  Scenario.sentiment_run Scenario.worded = (Raise ValueError, Scenario.the_query).
Proof. vm_compute. reflexivity. Qed.

(** C10.  The recency weight is not total: there is an input, an article
    dated exactly eight hours after the clock and therefore with
    [hours_ago = -8], on which [_aggregate_sentiment] raises
    [ZeroDivisionError], and with it the strategy.  The division by the
    total weight, in contrast, is guarded: rows whose weights cancel give
    0.0. *)
Theorem C10_recency_division_unguarded :
  (exists h,
      hours_ago_of (Scenario.world Scenario.ahead)
        (Scenario.article 0.5 1 Scenario.eight_hours_ahead) = Some h
      /\ h == -8
      /\ 1.0 + h / 8.0 == 0)
  /\ NewsSentimentStrategy._aggregate_sentiment
       (Scenario.world Scenario.ahead) Scenario.ahead = Raise ZeroDivisionError
  /\ Scenario.sentiment_run Scenario.ahead
     = (Raise ZeroDivisionError, Scenario.the_query)
  /\ Spec.total (map Spec.weight
                   (map (item_of (Scenario.world Scenario.cancelling))
                        Scenario.cancelling)) == 0
  /\ NewsSentimentStrategy._aggregate_sentiment
       (Scenario.world Scenario.cancelling) Scenario.cancelling = Ret 0.0.
Proof.
  split.
  { eexists. split; [reflexivity |]. split; vm_compute; reflexivity. }
  split.
  { apply (aggregate_singular (Scenario.world Scenario.ahead) []
             (Scenario.article 0.5 1 Scenario.eight_hours_ahead)
             [Scenario.article 0.5 1 Scenario.now] ((0 - 28800) / 3600.0));
      vm_compute; reflexivity. }
  split; [vm_compute; reflexivity |].
  split; vm_compute; reflexivity.
Qed.

(** C6.  [compute_rsi] returns 50.0 whenever there are fewer than
    [period + 1] closes, and otherwise Wilder's RSI: gains and losses are
    the positive and negative parts of the consecutive differences, both
    averages are seeded with the mean of the first [period] values and
    smoothed by [avg = (avg*(period-1) + value)/period], and the result is
    100 when the final average loss is 0, else
    [100 - 100/(1 + avg_gain/avg_loss)].  The period is a positive count
    (for a period of 0 numpy's mean of an empty slice is not a number). *)
Theorem C6_compute_rsi_is_wilder (closes : list Q) (period : nat) :
  (0 < period)%nat ->
  ((length closes < period + 1)%nat -> compute_rsi closes period = 50.0)
  /\ compute_rsi closes period == Spec.rsi closes period
  /\ ((period + 1 <= length closes)%nat ->
      let avg_gain := Spec.smoothed period (map Spec.gain (Spec.differences closes)) in
      let avg_loss := Spec.smoothed period (map Spec.loss (Spec.differences closes)) in
      (avg_loss == 0 -> compute_rsi closes period == 100)
      /\ (~ avg_loss == 0 ->
          compute_rsi closes period == 100 - 100 / (1 + avg_gain / avg_loss))).
Proof.
  intros _. split; [| split].
  - intros Hshort. apply Nat.ltb_lt in Hshort.
    unfold compute_rsi. rewrite Hshort. reflexivity.
  - apply compute_rsi_spec.
  - intros Hlong. apply Nat.ltb_ge in Hlong. cbv zeta.
    rewrite compute_rsi_spec. unfold Spec.rsi. rewrite Hlong. split.
    + intros H0. apply Qeq_bool_iff in H0. rewrite H0. reflexivity.
    + intros Hn. destruct (Qeq_bool _ 0) eqn:E; [| reflexivity].
      apply Qeq_bool_iff in E. contradiction.
Qed.

Lemma C6_witness :
  ((length (map close (Scenario.falling 15)) < 14 + 1)%nat ->
   compute_rsi (map close (Scenario.falling 15)) 14 = 50.0)
  /\ compute_rsi (map close (Scenario.falling 15)) 14
     == Spec.rsi (map close (Scenario.falling 15)) 14
  /\ ((14 + 1 <= length (map close (Scenario.falling 15)))%nat ->
      let avg_gain :=
        Spec.smoothed 14 (map Spec.gain (Spec.differences (map close (Scenario.falling 15)))) in
      let avg_loss :=
        Spec.smoothed 14 (map Spec.loss (Spec.differences (map close (Scenario.falling 15)))) in
      (avg_loss == 0 -> compute_rsi (map close (Scenario.falling 15)) 14 == 100)
      /\ (~ avg_loss == 0 ->
          compute_rsi (map close (Scenario.falling 15)) 14
          == 100 - 100 / (1 + avg_gain / avg_loss))).
Proof.
  apply (C6_compute_rsi_is_wilder (map close (Scenario.falling 15)) 14).
  lia.
Defined.

(** C8, as the code has it.  For a non-empty sequence of candles and a
    lookback of at least one, [highest_high] returns the maximum of the
    highs of the last [lookback] candles, which are all candles when there
    are fewer; the value never exceeds the maximum high of the whole
    input. *)
Theorem C8_highest_high_maximum (candles : list Candle) (lookback : nat) :
  candles <> [] -> (0 < lookback)%nat ->
  exists m,
    highest_high candles lookback = Ret m
    /\ Spec.is_maximum m (map high (Spec.trailing lookback candles))
    /\ ((length candles <= lookback)%nat -> Spec.is_maximum m (map high candles))
    /\ (forall M, Spec.is_maximum M (map high candles) -> m <= M).
Proof.
  intros Hne Hpos.
  destruct (highest_high_trailing candles lookback Hne Hpos) as (m & Hrun & Hmax).
  exists m. split; [exact Hrun |]. split; [exact Hmax |]. split.
  - intros Hall. rewrite trailing_drop in Hmax.
    replace (length candles - lookback)%nat with 0%nat in Hmax by lia.
    exact Hmax.
  - intros M HM.
    apply (maximum_monotone m M (map high (Spec.trailing lookback candles))
             (map high candles)); [| exact Hmax | exact HM].
    intros x Hx. rewrite trailing_drop in Hx.
    apply list_elem_of_In, in_map_iff in Hx as (cd & <- & Hcd).
    apply list_elem_of_In, in_map, list_elem_of_In.
    apply (subseteq_drop (length candles - lookback) candles).
    apply list_elem_of_In, Hcd.
Qed.

Lemma C8_witness :
  exists m,
    highest_high (Scenario.falling 5) 3 = Ret m
    /\ Spec.is_maximum m (map high (Spec.trailing 3 (Scenario.falling 5)))
    /\ ((length (Scenario.falling 5) <= 3)%nat ->
        Spec.is_maximum m (map high (Scenario.falling 5)))
    /\ (forall M, Spec.is_maximum M (map high (Scenario.falling 5)) -> m <= M).
Proof.
  apply (C8_highest_high_maximum (Scenario.falling 5) 3).
  - vm_compute. discriminate.
  - lia.
Defined.

(** C8 as stated fails on the empty sequence: there is no maximum to
    return and [max] raises. *)
Lemma C8_counterexample :
  highest_high [] 20 = Raise ValueError
  /\ ~ exists m, highest_high [] 20 = Ret m.
Proof.
  split; [reflexivity |]. intros [m H]. discriminate.
Qed.

(** * Further properties of the code *)

(** ** [compute_rsi]: range and the two extreme markets *)

Section RSIExtremes.

Lemma period_at_least_one (period : nat) :
  (0 < period)%nat -> 1 <= inject_Z (Z.of_nat period).
Proof. intros H. change 1 with (inject_Z 1). rewrite <- Zle_Qle. lia. Qed.

Lemma total_nonneg (xs : list Q) :
  Forall (fun x => 0 <= x) xs -> 0 <= Spec.total xs.
Proof. induction 1 as [| x xs Hx _ IH]; simpl; lra. Qed.

Lemma total_zero (xs : list Q) :
  Forall (fun x => x == 0) xs -> Spec.total xs == 0.
Proof. induction 1 as [| x xs Hx _ IH]; simpl; [reflexivity |]. rewrite Hx, IH. ring. Qed.

Lemma total_positive (xs : list Q) :
  xs <> [] -> Forall (fun x => 0 < x) xs -> 0 < Spec.total xs.
Proof.
  intros Hne H. destruct H as [| x xs Hx Hxs]; [congruence |]. simpl.
  assert (0 <= Spec.total xs).
  { apply total_nonneg. eapply Forall_impl; [exact Hxs |]. intros; simpl in *; lra. }
  lra.
Qed.

Lemma wilder_nonneg (period : nat) (xs : list Q) :
  (0 < period)%nat -> Forall (fun x => 0 <= x) xs ->
  forall avg, 0 <= avg -> 0 <= Spec.wilder period avg xs.
Proof.
  intros Hp H. pose proof (period_at_least_one period Hp) as HP.
  induction H as [| x xs Hx _ IH]; intros avg Havg; simpl; [exact Havg |].
  apply IH. apply Qle_shift_div_l; [lra | nra].
Qed.

Lemma wilder_zero (period : nat) (xs : list Q) :
  Forall (fun x => x == 0) xs ->
  forall avg, avg == 0 -> Spec.wilder period avg xs == 0.
Proof.
  induction 1 as [| x xs Hx _ IH]; intros avg Havg; simpl; [exact Havg |].
  apply IH. rewrite Hx, Havg. unfold Qdiv. ring.
Qed.

Lemma wilder_positive (period : nat) (xs : list Q) :
  (0 < period)%nat -> Forall (fun x => 0 < x) xs ->
  forall avg, 0 < avg -> 0 < Spec.wilder period avg xs.
Proof.
  intros Hp H. pose proof (period_at_least_one period Hp) as HP.
  induction H as [| x xs Hx _ IH]; intros avg Havg; simpl; [exact Havg |].
  apply IH. apply Qlt_shift_div_l; [lra | nra].
Qed.

Lemma smoothed_nonneg (period : nat) (xs : list Q) :
  (0 < period)%nat -> Forall (fun x => 0 <= x) xs ->
  0 <= Spec.smoothed period xs.
Proof.
  intros Hp H. pose proof (period_at_least_one period Hp) as HP.
  unfold Spec.smoothed. apply wilder_nonneg; [exact Hp | apply Forall_drop, H |].
  apply Qle_shift_div_l; [lra |].
  pose proof (total_nonneg (take period xs) (Forall_take _ _ _ H)). lra.
Qed.

Lemma smoothed_zero (period : nat) (xs : list Q) :
  Forall (fun x => x == 0) xs -> Spec.smoothed period xs == 0.
Proof.
  intros H. unfold Spec.smoothed. apply wilder_zero; [apply Forall_drop, H |].
  rewrite (total_zero _ (Forall_take _ _ _ H)). unfold Qdiv. ring.
Qed.

Lemma smoothed_positive (period : nat) (xs : list Q) :
  (0 < period <= length xs)%nat -> Forall (fun x => 0 < x) xs ->
  0 < Spec.smoothed period xs.
Proof.
  intros [Hp Hlen] H. pose proof (period_at_least_one period Hp) as HP.
  unfold Spec.smoothed. apply wilder_positive; [exact Hp | apply Forall_drop, H |].
  apply Qlt_shift_div_l; [lra |].
  assert (0 < Spec.total (take period xs)).
  { apply total_positive; [| apply Forall_take, H].
    intros E. apply (f_equal length) in E. rewrite length_take in E.
    simpl in E. lia. }
  lra.
Qed.

Lemma rising_differences (closes : list Q) :
  Sorted Qle closes -> Forall (fun d => 0 <= d) (Spec.differences closes).
Proof.
  induction closes as [| a [| b rest] IH]; intros H; try constructor.
  - apply Sorted_inv in H as [_ Hab]. inversion Hab; subst. lra.
  - apply IH. apply Sorted_inv in H as [H _]. exact H.
Qed.

Lemma falling_differences (closes : list Q) :
  Sorted (fun a b => b < a) closes ->
  Forall (fun d => d < 0) (Spec.differences closes).
Proof.
  induction closes as [| a [| b rest] IH]; intros H; try constructor.
  - apply Sorted_inv in H as [_ Hab]. inversion Hab; subst. lra.
  - apply IH. apply Sorted_inv in H as [H _]. exact H.
Qed.

End RSIExtremes.

(** X1.  For a positive period [compute_rsi] always lies between 0 and
    100. *)
Theorem X1_compute_rsi_range (closes : list Q) (period : nat) :
  (0 < period)%nat ->
  0 <= compute_rsi closes period /\ compute_rsi closes period <= 100.
Proof.
  intros Hp. rewrite compute_rsi_spec. unfold Spec.rsi.
  destruct (_ <? _)%nat; [split; lra |].
  set (ag := Spec.smoothed period (map Spec.gain (Spec.differences closes))).
  set (al := Spec.smoothed period (map Spec.loss (Spec.differences closes))).
  assert (Hag : 0 <= ag).
  { apply smoothed_nonneg; [exact Hp |]. apply Forall_forall. intros x Hx.
    apply list_elem_of_In, in_map_iff in Hx as (d & <- & _). apply Q.le_max_r. }
  assert (Hal : 0 <= al).
  { apply smoothed_nonneg; [exact Hp |]. apply Forall_forall. intros x Hx.
    apply list_elem_of_In, in_map_iff in Hx as (d & <- & _). apply Q.le_max_r. }
  destruct (Qeq_bool al 0) eqn:E; [split; lra |].
  apply Qeq_bool_neq in E.
  assert (Hpos : 0 < al) by (destruct (Qlt_le_dec 0 al); [assumption | exfalso; apply E; lra]).
  assert (Hrs : 0 <= ag / al) by (apply Qle_shift_div_l; lra).
  assert (H1 : 0 < 100 / (1 + ag / al)) by (apply Qlt_shift_div_l; lra).
  assert (H2 : 100 / (1 + ag / al) <= 100) by (apply Qle_shift_div_r; lra).
  split; lra.
Qed.

Lemma X1_witness :
  0 <= compute_rsi [10; 12; 11; 14] 2 /\ compute_rsi [10; 12; 11; 14] 2 <= 100.
Proof. apply (X1_compute_rsi_range [10; 12; 11; 14] 2). lia. Defined.

(** X2.  On closes that never fall, with at least [period + 1] of them,
    [compute_rsi] is 100. *)
Theorem X2_compute_rsi_rising (closes : list Q) (period : nat) :
  (0 < period)%nat -> (period + 1 <= length closes)%nat ->
  Sorted Qle closes ->
  compute_rsi closes period == 100.
Proof.
  intros Hp Hlen Hsorted. rewrite compute_rsi_spec. unfold Spec.rsi.
  apply Nat.ltb_ge in Hlen. rewrite Hlen.
  assert (Hal : Spec.smoothed period (map Spec.loss (Spec.differences closes)) == 0).
  { apply smoothed_zero. apply Forall_forall. intros x Hx.
    apply list_elem_of_In, in_map_iff in Hx as (d & <- & Hd).
    pose proof (rising_differences closes Hsorted) as Hr.
    rewrite Forall_forall in Hr. specialize (Hr d (proj2 (list_elem_of_In _ _) Hd)).
    unfold Spec.loss. apply Q.max_r. simpl in Hr. lra. }
  apply Qeq_bool_iff in Hal. rewrite Hal. reflexivity.
Qed.

Lemma X2_witness : compute_rsi [1; 2; 2; 5] 2 == 100.
Proof.
  apply (X2_compute_rsi_rising [1; 2; 2; 5] 2); [lia | simpl; lia |].
  repeat constructor; vm_compute; discriminate.
Defined.

(** X3.  On strictly falling closes, with at least [period + 1] of them,
    [compute_rsi] is 0, so the mean-reversion condition holds for every
    positive oversold threshold. *)
Theorem X3_compute_rsi_falling (self : NewsRSICombo.t) (candles : list Candle) :
  (0 < NewsRSICombo.rsi_period self)%nat ->
  (NewsRSICombo.rsi_period self + 1 <= length candles)%nat ->
  Sorted (fun a b => b < a) (map close candles) ->
  compute_rsi (map close candles) (NewsRSICombo.rsi_period self) == 0
  /\ (0 < NewsRSICombo.oversold self ->
      Spec.technical_condition (NewsRSI self) candles = Ret true).
Proof.
  intros Hp Hlen Hsorted.
  set (closes := map close candles) in *. set (period := NewsRSICombo.rsi_period self) in *.
  assert (Hrsi : compute_rsi closes period == 0).
  { rewrite compute_rsi_spec. unfold Spec.rsi.
    assert (Hlen' : (period + 1 <= length closes)%nat)
      by (subst closes; rewrite length_map; exact Hlen).
    pose proof Hlen' as Hltb. apply Nat.ltb_ge in Hltb. rewrite Hltb.
    pose proof (falling_differences closes Hsorted) as Hf.
    rewrite Forall_forall in Hf.
    assert (Hag : Spec.smoothed period (map Spec.gain (Spec.differences closes)) == 0).
    { apply smoothed_zero. apply Forall_forall. intros x Hx.
      apply list_elem_of_In, in_map_iff in Hx as (d & <- & Hd).
      specialize (Hf d (proj2 (list_elem_of_In _ _) Hd)).
      unfold Spec.gain. apply Q.max_r. simpl in Hf. lra. }
    assert (Hal : 0 < Spec.smoothed period (map Spec.loss (Spec.differences closes))).
    { apply smoothed_positive.
      - rewrite length_map, length_differences. lia.
      - apply Forall_forall. intros x Hx.
        apply list_elem_of_In, in_map_iff in Hx as (d & <- & Hd).
        specialize (Hf d (proj2 (list_elem_of_In _ _) Hd)).
        unfold Spec.loss. rewrite Q.max_l by (simpl in Hf; lra). simpl in Hf. lra. }
    set (al := Spec.smoothed period (map Spec.loss (Spec.differences closes))) in *.
    assert (Qeq_bool al 0 = false) as ->.
    { destruct (Qeq_bool al 0) eqn:E; [| reflexivity]. apply Qeq_bool_iff in E. lra. }
    rewrite Hag. assert (E0 : 0 / al == 0) by (unfold Qdiv; ring).
    rewrite E0. reflexivity. }
  split; [exact Hrsi |].
  intros Hov. simpl. fold closes period. f_equal. apply Qltb_lt. lra.
Qed.

Lemma X3_witness :
  compute_rsi (map close (Scenario.falling 15)) 14 == 0
  /\ (0 < 30.0 ->
      Spec.technical_condition Scenario.rsi_combo (Scenario.falling 15) = Ret true).
Proof.
  apply (X3_compute_rsi_falling
           {| NewsRSICombo.news_strategy := Scenario.news;
              NewsRSICombo.rsi_period := 14;
              NewsRSICombo.oversold := 30.0 |} (Scenario.falling 15)).
  - simpl. lia.
  - vm_compute. lia.
  - vm_compute. repeat constructor.
Defined.

(** ** [simple_ma] *)

Section SimpleMA.

Lemma sum_is_total (xs : list Q) : Py.sum xs == Spec.total xs.
Proof.
  apply sum_total, Forall_Forall2_diag, Forall_forall. intros; reflexivity.
Qed.

End SimpleMA.

(** X4.  [simple_ma] raises exactly when the period is 0, and then it is a
    division by zero, whatever the values.  Otherwise, with fewer values
    than the period it returns the last value unchanged (0.0 when there is
    none), and with enough values its result times the period is the sum
    of the last [period] values. *)
Theorem X4_simple_ma_cases (values : list Q) (period : nat) :
  match simple_ma values period with
  | Raise e => e = ZeroDivisionError /\ period = 0%nat
  | Ret m =>
      (0 < period)%nat
      /\ ((length values < period)%nat -> m = default 0.0 (last values))
      /\ ((period <= length values)%nat ->
          m * inject_Z (Z.of_nat period)
          == Spec.total (Spec.trailing period values))
  end.
Proof.
  unfold simple_ma. destruct (length values <? period)%nat eqn:E.
  - apply Nat.ltb_lt in E.
    destruct (last values) eqn:El; (split; [lia |]; split; [reflexivity | lia]).
  - apply Nat.ltb_ge in E. unfold Py.div.
    destruct (Qeq_bool (inject_Z (Z.of_nat period)) 0) eqn:Ez.
    + apply Qeq_bool_iff in Ez. unfold Qeq in Ez. simpl in Ez.
      split; [reflexivity | lia].
    + apply Qeq_bool_neq in Ez.
      assert (Hp : (0 < period)%nat).
      { destruct period; [exfalso; apply Ez; reflexivity | lia]. }
      split; [exact Hp |]. split; [lia |]. intros _.
      rewrite (last_n_trailing period values Hp), sum_is_total. field. exact Ez.
Qed.

(** ** [highest_high] and the two price conditions that use the window *)

Section Windows.

Lemma trailing_nested {A} (n m : nat) (xs : list A) :
  (n <= m)%nat -> Spec.trailing n xs ⊆ Spec.trailing m xs.
Proof.
  intros Hnm. rewrite !trailing_drop.
  replace (length xs - n)%nat
    with ((length xs - m) + ((length xs - n) - (length xs - m)))%nat by lia.
  rewrite <- drop_drop. apply subseteq_drop.
Qed.

Lemma maximum_above (m : Q) (xs : list Q) (bound : Q) :
  Spec.is_maximum m xs -> (m < bound <-> Forall (fun x => x < bound) xs).
Proof.
  intros [Hin Hall]. rewrite Forall_forall in Hall. split.
  - intros Hm. apply Forall_forall. intros x Hx. specialize (Hall x Hx).
    simpl in Hall. lra.
  - intros H. rewrite Forall_forall in H. apply H, Hin.
Qed.

Lemma map_subseteq {A B} (f : A -> B) (xs ys : list A) :
  xs ⊆ ys -> map f xs ⊆ map f ys.
Proof.
  intros H y Hy. apply list_elem_of_In, in_map_iff in Hy as (x & <- & Hx).
  apply list_elem_of_In, in_map, list_elem_of_In, H, list_elem_of_In, Hx.
Qed.

Lemma last_item_defined {A} (xs : list A) :
  xs <> [] -> exists x, last_item xs = Ret x /\ last xs = Some x.
Proof.
  intros Hne. unfold last_item. destruct (last xs) as [x |] eqn:E.
  - exists x. split; reflexivity.
  - apply last_None in E. contradiction.
Qed.

End Windows.

(** X6.  On a non-empty sequence a longer lookback never gives a smaller
    [highest_high]. *)
Theorem X6_highest_high_grows_with_lookback (candles : list Candle) (n m : nat) :
  candles <> [] -> (0 < n)%nat -> (n <= m)%nat ->
  exists a b,
    highest_high candles n = Ret a /\ highest_high candles m = Ret b /\ a <= b.
Proof.
  intros Hne Hn Hnm.
  destruct (highest_high_trailing candles n Hne Hn) as (a & Ha & Hmaxa).
  destruct (highest_high_trailing candles m Hne ltac:(lia)) as (b & Hb & Hmaxb).
  exists a, b. split; [exact Ha |]. split; [exact Hb |].
  apply (maximum_monotone a b (map high (Spec.trailing n candles))
           (map high (Spec.trailing m candles))); [| exact Hmaxa | exact Hmaxb].
  apply map_subseteq, trailing_nested, Hnm.
Qed.

Lemma X6_witness :
  exists a b,
    highest_high (Scenario.falling 5) 2 = Ret a
    /\ highest_high (Scenario.falling 5) 4 = Ret b /\ a <= b.
Proof.
  apply (X6_highest_high_grows_with_lookback (Scenario.falling 5) 2 4).
  - vm_compute. discriminate.
  - lia.
  - lia.
Defined.

(** X7.  With a positive lookback and more candles than the lookback, the
    breakout condition is defined, and it holds exactly when the last
    close lies strictly above the high of every one of the [lookback]
    candles before the last. *)
Theorem X7_breakout_condition (self : NewsBreakoutCombo.t) (candles : list Candle) :
  (0 < NewsBreakoutCombo.lookback self)%nat ->
  (NewsBreakoutCombo.lookback self + 1 <= length candles)%nat ->
  exists current tech_buy,
    last candles = Some current
    /\ Spec.technical_condition (NewsBreakout self) candles = Ret tech_buy
    /\ (tech_buy = true
        <-> Forall (fun c => high c < close current)
              (Spec.trailing (NewsBreakoutCombo.lookback self) (but_last candles))).
Proof.
  intros Hpos Hlen.
  destruct (last_item_defined candles) as (current & Hitem & Hlast).
  { intros ->. simpl in Hlen. lia. }
  destruct (highest_high_trailing (but_last candles) (NewsBreakoutCombo.lookback self))
    as (hh & Hhh & Hmax).
  { intros E. apply (f_equal length) in E. unfold but_last in E.
    rewrite length_take in E. simpl in E. lia. }
  { exact Hpos. }
  exists current, (Qltb hh (close current)).
  split; [exact Hlast |]. split.
  - simpl. rewrite Hitem. simpl. rewrite Hhh. reflexivity.
  - rewrite Qltb_lt, (maximum_above hh _ (close current) Hmax).
    rewrite Forall_fmap. reflexivity.
Qed.

Lemma X7_witness :
  exists current tech_buy,
    last (Scenario.falling 5) = Some current
    /\ Spec.technical_condition
         (NewsBreakout {| NewsBreakoutCombo.news_strategy := Scenario.news;
                          NewsBreakoutCombo.lookback := 3 |})
         (Scenario.falling 5) = Ret tech_buy
    /\ (tech_buy = true
        <-> Forall (fun c => high c < close current)
              (Spec.trailing 3 (but_last (Scenario.falling 5)))).
Proof.
  apply (X7_breakout_condition
           {| NewsBreakoutCombo.news_strategy := Scenario.news;
              NewsBreakoutCombo.lookback := 3 |} (Scenario.falling 5)).
  - simpl. lia.
  - vm_compute. lia.
Defined.

(** X8.  When the trend-pullback condition holds for a positive
    [pullback_pct], the last close lies above the moving average, the
    highest of the last 20 closes is positive, and the last close lies
    between [(1 - pullback_pct)] and [(1 - pullback_pct/2)] times that
    high; in particular it is strictly below the high. *)
Theorem X8_trend_pullback_window (self : NewsTrendMA200Combo.t)
    (candles : list Candle) :
  0 < NewsTrendMA200Combo.pullback_pct self ->
  Spec.technical_condition (NewsTrendMA200 self) candles = Ret true ->
  exists sma current recent_high,
    simple_ma (map close candles) (NewsTrendMA200Combo.ma_period self) = Ret sma
    /\ last candles = Some current
    /\ max_of (last_n 20 (map close candles)) = Ret recent_high
    /\ sma < close current
    /\ 0 < recent_high
    /\ (1 - NewsTrendMA200Combo.pullback_pct self) * recent_high <= close current
    /\ close current
       <= (1 - 0.5 * NewsTrendMA200Combo.pullback_pct self) * recent_high
    /\ close current < recent_high.
Proof.
  intros Hpct Htech. unfold Spec.technical_condition in Htech.
  destruct (simple_ma _ _) as [sma | e]; [| discriminate].
  cbn [mbind outcome_bind] in Htech.
  unfold last_item in Htech.
  destruct (last candles) as [current |]; [| discriminate].
  cbn [mbind outcome_bind] in Htech.
  destruct (max_of _) as [rh | e]; [| discriminate].
  cbn [mbind outcome_bind] in Htech. injection Htech as Htech.
  apply andb_prop in Htech as [Hup Hrange].
  apply andb_prop in Hrange as [Hlo Hhi].
  apply Qltb_lt in Hup. apply Qle_bool_iff in Hlo, Hhi.
  set (pct := NewsTrendMA200Combo.pullback_pct self) in *.
  exists sma, current, rh.
  destruct (Qltb 0 rh) eqn:Erh.
  - apply Qltb_lt in Erh.
    assert (Hq : (rh - close current) / rh * rh == rh - close current)
      by (field; lra).
    set (d := (rh - close current) / rh) in *.
    repeat split; try reflexivity; try assumption; nra.
  - exfalso. lra.
Qed.

Lemma X8_witness :
  exists sma current recent_high,
    simple_ma (map close (map (fun px => {| time := ""; open := px; high := px;
                                            low := px; close := px; volume := 0 |})
                              [100; 90; 96])) 2 = Ret sma
    /\ last (map (fun px => {| time := ""; open := px; high := px;
                               low := px; close := px; volume := 0 |})
                 [100; 90; 96]) = Some current
    /\ max_of (last_n 20
                 (map close (map (fun px => {| time := ""; open := px; high := px;
                                               low := px; close := px; volume := 0 |})
                                 [100; 90; 96]))) = Ret recent_high
    /\ sma < close current
    /\ 0 < recent_high
    /\ (1 - 0.05) * recent_high <= close current
    /\ close current <= (1 - 0.5 * 0.05) * recent_high
    /\ close current < recent_high.
Proof.
  apply (X8_trend_pullback_window
           {| NewsTrendMA200Combo.news_strategy := Scenario.news;
              NewsTrendMA200Combo.ma_period := 2;
              NewsTrendMA200Combo.pullback_pct := 0.05 |}
           (map (fun px => {| time := ""; open := px; high := px;
                              low := px; close := px; volume := 0 |})
                [100; 90; 96])).
  - reflexivity.
  - vm_compute. reflexivity.
Defined.

(** ** The aggregation as a sum over the articles *)

Section AggregationSums.

Variables (env : Env) (now : datetime).

Lemma aggregate_loop_terms (articles : list (gmap string value)) :
  forall ws0 wt0 ws wt,
    NewsSentimentStrategy.aggregate_loop env now articles ws0 wt0 = Ret (ws, wt) ->
    exists terms,
      Forall2 (fun art t => NewsSentimentStrategy.article_terms env now art = Ret t)
              articles terms
      /\ ws == ws0 + Spec.total (map (fun t => fst t * snd t) terms)
      /\ wt == wt0 + Spec.total (map snd terms).
Proof.
  induction articles as [| art rest IH]; intros ws0 wt0 ws wt.
  - simpl. intros [= <- <-]. exists []. split; [constructor |]. simpl. split; ring.
  - simpl.
    destruct (NewsSentimentStrategy.article_terms env now art) as [t | e] eqn:Et;
      simpl; [| discriminate].
    intros Hloop. destruct (IH _ _ _ _ Hloop) as (terms & Hall & Hws & Hwt).
    exists (t :: terms). split; [constructor; assumption |].
    simpl. rewrite Hws, Hwt. split; ring.
Qed.

End AggregationSums.

(** ** Unanimous news *)

Section Unanimous.

Variable env : Env.

Lemma article_terms_not_bullish (now : datetime) (art : gmap string value) (s w : Q) :
  not_bullish env art = true ->
  NewsSentimentStrategy.article_terms env now art = Ret (s, w) ->
  s <= 0 /\ 0 <= w.
Proof.
  unfold not_bullish, read_sentiment, read_impact,
    NewsSentimentStrategy.article_terms.
  destruct (Py.float _ (py_or (get art "sentiment_score") _)) as [s0 | e];
    simpl; [| discriminate].
  destruct (Py.float _ (py_or (get art "impact_score") _)) as [i | e];
    simpl; [| discriminate].
  intros Hrange. apply andb_prop in Hrange as [Hs Hi].
  apply Qle_bool_iff in Hs, Hi.
  match goal with
  | |- context [mbind _ ?p] => destruct p as [d | e]; simpl; [| discriminate]
  end.
  destruct (seconds_between now d) as [secs | e]; simpl; [| discriminate].
  destruct (Py.div _ _) as [inv | e]; simpl; [| discriminate].
  intros [= <- <-].
  pose proof (max2_lower 0.1 inv) as [Hm _].
  split; [assumption | nra].
Qed.

Lemma terms_inherit (now : datetime) (good : Q * Q -> Prop)
    (articles : list (gmap string value)) (terms : list (Q * Q)) :
  Forall2 (fun art t => NewsSentimentStrategy.article_terms env now art = Ret t)
          articles terms ->
  (forall art t, In art articles ->
     NewsSentimentStrategy.article_terms env now art = Ret t -> good t) ->
  Forall good terms.
Proof.
  induction 1 as [| art t rest terms Ht _ IH]; intros Hgood; constructor.
  - apply (Hgood art t); [left; reflexivity | exact Ht].
  - apply IH. intros a u Hin. apply Hgood. right. exact Hin.
Qed.

Lemma aggregate_not_bullish (articles : list (gmap string value)) (avg : Q) :
  forallb (not_bullish env) articles = true ->
  NewsSentimentStrategy._aggregate_sentiment env articles = Ret avg ->
  avg <= 0.
Proof.
  intros Hall. unfold NewsSentimentStrategy._aggregate_sentiment.
  destruct articles as [| a rest]; [intros [= <-]; lra |].
  destruct (NewsSentimentStrategy.aggregate_loop _ _ _ _ _) as [[ws wt] | e] eqn:Hloop;
    cbn [mbind outcome_bind]; [| discriminate].
  intros [= <-].
  destruct (aggregate_loop_terms _ _ _ _ _ _ _ Hloop) as (terms & Hterms & Hws & Hwt).
  rewrite forallb_forall in Hall.
  assert (Hsw : Forall (fun x => 0 <= x) (map (fun t => - (fst t * snd t)) terms)).
  { apply Forall_fmap.
    apply (terms_inherit _ _ _ _ Hterms). intros art [s w] Hin Ht.
    destruct (article_terms_not_bullish _ art s w (Hall art Hin) Ht). simpl. nra. }
  assert (Hw : Forall (fun x => 0 <= x) (map snd terms)).
  { apply Forall_fmap.
    apply (terms_inherit _ _ _ _ Hterms). intros art [s w] Hin Ht.
    destruct (article_terms_not_bullish _ art s w (Hall art Hin) Ht). simpl. lra. }
  apply total_nonneg in Hsw, Hw.
  assert (Hneg : Spec.total (map (fun t => - (fst t * snd t)) terms)
                 == - Spec.total (map (fun t => fst t * snd t) terms)).
  { clear. induction terms as [| t terms IH]; simpl; [reflexivity |].
    rewrite IH. ring. }
  destruct (Qltb 0 wt) eqn:E; [| lra].
  apply Qltb_lt in E. apply Qle_shift_div_r; [exact E | lra].
Qed.

End Unanimous.

(** X10.  When every fetched article has a sentiment that is not positive
    and an impact that is not negative, the news-sentiment strategy never
    returns BUY. *)
Theorem X10_no_buy_without_positive_news (self : NewsSentimentStrategy.t)
    (symbol : string) (candles : list Candle) (env : Env)
    (log log' : list query) (r : StrategyResult) :
  forallb (not_bullish env) (fetched env self symbol) = true ->
  generate_signal (NewsSentiment self) symbol candles env log = (Ret r, log') ->
  signal_type r = "HOLD".
Proof.
  intros Hall Hrun. simpl in Hrun.
  apply news_inversion in Hrun as [_ [(_ & Hs & _) | (_ & avg & Hagg & Hs & _)]];
    [exact Hs |].
  rewrite Hs. pose proof (aggregate_not_bullish env _ avg Hall Hagg) as Havg.
  assert (Qltb 0 avg = false) as -> by (apply Qltb_ge; exact Havg).
  reflexivity.
Qed.

Lemma X10_witness :
  signal_type
    (Scenario.returned
       (Scenario.sentiment_run [Scenario.article (-0.4) 1 Scenario.now;
                                Scenario.article 0 0.5 Scenario.now]))
  = "HOLD".
Proof.
  apply (X10_no_buy_without_positive_news Scenario.news "AAPL" []
           (Scenario.world [Scenario.article (-0.4) 1 Scenario.now;
                            Scenario.article 0 0.5 Scenario.now])
           [] Scenario.the_query).
  - vm_compute. reflexivity.
  - vm_compute. reflexivity.
Defined.

(** ** The recency weight *)

Section Recency.

Lemma recency_denominator (h : Q) : 1.0 + h / 8.0 == 1 + h * (1 # 8).
Proof. field. Qed.

Lemma inverse_positive (d : Q) : 0 < d -> 0 < 1.0 / d.
Proof. intros H. apply Qlt_shift_div_l; lra. Qed.

Lemma inverse_negative (d : Q) : d < 0 -> 1.0 / d < 0.
Proof.
  intros H. assert (E : 1.0 / d == - (1.0 / - d)) by (field; lra).
  pose proof (inverse_positive (- d) ltac:(lra)). lra.
Qed.

(** The weight factor [max(0.1, 1/(1 + h/8))] as a function of the age. *)
Lemma recency_factor_cases (h : Q) :
  let r := max2 0.1 (1.0 / (1.0 + h / 8.0)) in
  0.1 <= r
  /\ (0 <= h -> r <= 1)
  /\ (0 <= h -> h <= 72 -> r == 1 / (1 + h / 8))
  /\ (72 <= h -> r == 0.1)
  /\ (-8 < h -> h < 0 -> 1 < r)
  /\ (h < -8 -> r == 0.1).
Proof.
  cbv zeta. pose proof (recency_denominator h) as HD.
  set (d := 1.0 + h / 8.0) in *.
  pose proof (max2_lower 0.1 (1.0 / d)) as [Hfloor Hinv].
  split; [exact Hfloor |]. split; [| split; [| split; [| split]]].
  - intros Hh. apply max2_upper; [lra |]. apply Qle_shift_div_r; lra.
  - intros H0 H72.
    assert (Hge : 0.1 <= 1.0 / d) by (apply Qle_shift_div_l; lra).
    assert (E : max2 0.1 (1.0 / d) == 1.0 / d).
    { unfold max2. destruct (Qltb 0.1 (1.0 / d)) eqn:E; [reflexivity |].
      apply Qltb_ge in E. lra. }
    rewrite E. subst d. apply Qdiv_comp; [reflexivity |].
    apply Qplus_comp; [reflexivity |]. apply Qdiv_comp; reflexivity.
  - intros H72.
    assert (Hle : 1.0 / d <= 0.1) by (apply Qle_shift_div_r; lra).
    unfold max2. destruct (Qltb 0.1 (1.0 / d)) eqn:E; [| reflexivity].
    apply Qltb_lt in E. lra.
  - intros Hlo Hhi.
    assert (Hgt : 1 < 1.0 / d) by (apply Qlt_shift_div_l; lra). lra.
  - intros Hlo. pose proof (inverse_negative d ltac:(lra)) as Hneg.
    unfold max2. destruct (Qltb 0.1 (1.0 / d)) eqn:E; [| reflexivity].
    apply Qltb_lt in E. lra.
Qed.

End Recency.

(** X12.  On a readable article the weight is the impact, as read, times a
    recency factor that is never below 0.1.  For an article that is not
    dated in the future the factor is at most 1; up to 72 hours of age it
    is [1/(1 + hours_ago/8)], from 72 hours on it is the floor 0.1.  An
    article dated less than eight hours ahead of the clock gets a factor
    above 1, one dated more than eight hours ahead gets the floor. *)
Theorem X12_recency_factor (env : Env) (art : gmap string value) :
  readable env art = true ->
  exists s impact r h,
    NewsSentimentStrategy.article_terms env (Aware (utcnow env)) art
      = Ret (s, impact * r)
    /\ read_impact env art = Ret impact
    /\ hours_ago_of env art = Some h
    /\ 0.1 <= r
    /\ (0 <= h -> r <= 1)
    /\ (0 <= h -> h <= 72 -> r == 1 / (1 + h / 8))
    /\ (72 <= h -> r == 0.1)
    /\ (-8 < h -> h < 0 -> 1 < r)
    /\ (h < -8 -> r == 0.1).
Proof.
  intros Hread.
  destruct (article_terms_readable env art Hread) as (h & Eh & _ & Et).
  unfold readable in Hread. apply andb_prop in Hread as [Hread _].
  apply andb_prop in Hread as [_ Hi].
  eexists _, _, _, h. split; [exact Et |].
  split; [unfold read_impact; apply float_plain, Hi |].
  split; [exact Eh |]. apply recency_factor_cases.
Qed.

Lemma X12_witness :
  exists s impact r h,
    NewsSentimentStrategy.article_terms (Scenario.world [])
      (Aware (utcnow (Scenario.world [])))
      (Scenario.article 0.5 1 Scenario.now) = Ret (s, impact * r)
    /\ read_impact (Scenario.world []) (Scenario.article 0.5 1 Scenario.now)
       = Ret impact
    /\ hours_ago_of (Scenario.world []) (Scenario.article 0.5 1 Scenario.now) = Some h
    /\ 0.1 <= r
    /\ (0 <= h -> r <= 1)
    /\ (0 <= h -> h <= 72 -> r == 1 / (1 + h / 8))
    /\ (72 <= h -> r == 0.1)
    /\ (-8 < h -> h < 0 -> 1 < r)
    /\ (h < -8 -> r == 0.1).
Proof.
  apply (X12_recency_factor (Scenario.world []) (Scenario.article 0.5 1 Scenario.now)).
  vm_compute. reflexivity.
Defined.

(** ** The runner *)

Section RunnerTraces.

Import Runner.

Lemma run_R_bind {A B} (m : R A) (f : A -> R B) (db : Database) (trace : list event) :
  (m ≫= f) db trace =
  match m db trace with
  | (Ret a, trace') => f a db trace'
  | (Raise e, trace') => (Raise e, trace')
  end.
Proof. reflexivity. Qed.

Lemma first_id_take (ids : list value) :
  match take 1 ids with [] => VNone | id :: _ => id end = first_id ids.
Proof. destruct ids; reflexivity. Qed.

Lemma emits_ret {A} (db : Database) (P : event -> Prop) (a : A) :
  emits db P (mret a : R A).
Proof. intros trace. exists []. split; [symmetry; apply app_nil_r | constructor]. Qed.

Lemma emits_bind {A B} (db : Database) (P : event -> Prop) (m : R A) (f : A -> R B) :
  emits db P m ->
  (forall a trace trace', m db trace = (Ret a, trace') -> emits db P (f a)) ->
  emits db P (m ≫= f).
Proof.
  intros Hm Hf trace. rewrite run_R_bind.
  destruct (Hm trace) as (ev1 & E1 & H1).
  destruct (m db trace) as [[a | e] trace'] eqn:Em; simpl in E1; subst trace'.
  - destruct (Hf a _ _ Em (trace ++ ev1)) as (ev2 & E2 & H2).
    exists (ev1 ++ ev2). rewrite E2, app_assoc. split; [reflexivity |].
    apply Forall_app. split; assumption.
  - exists ev1. split; [reflexivity | exact H1].
Qed.

Lemma emits_for_each {A} (db : Database) (P : event -> Prop) (xs : list A)
    (body : A -> R unit) :
  (forall x, In x xs -> emits db P (body x)) -> emits db P (for_each xs body).
Proof.
  induction xs as [| x xs IH]; intros Hbody; simpl.
  - apply emits_ret.
  - apply emits_bind; [apply Hbody; left; reflexivity |].
    intros _ _ _ _. apply IH. intros y Hy. apply Hbody. right. exact Hy.
Qed.

Lemma emits_one {A} (db : Database) (P : event -> Prop) (m : R A) (a : A)
    (e : event) :
  (forall trace, m db trace = (Ret a, trace ++ [e])) -> P e -> emits db P m.
Proof.
  intros Hm He trace. exists [e]. rewrite Hm.
  split; [reflexivity | repeat constructor; exact He].
Qed.

Lemma emits_call {A} (db : Database) (P : event -> Prop) (m : M A) :
  (forall q, P (SelectNews q)) -> emits db P (call m).
Proof.
  intros HP trace. unfold call. destruct (m (world db) []) as [o queries].
  exists (map SelectNews queries). split; [reflexivity |].
  apply Forall_forall. intros e He.
  apply list_elem_of_In, in_map_iff in He as (q & <- & _). apply HP.
Qed.

Lemma normalize_signal_type_cases (s : string) :
  normalize_signal_type s = "BUY" \/ normalize_signal_type s = "HOLD".
Proof. unfold normalize_signal_type. destruct (String.eqb s "BUY"); [left | right]; reflexivity. Qed.

Lemma timeframe_of_daily (strat : Combination) : timeframe_of strat = "1D".
Proof. destruct strat; reflexivity. Qed.

(** The newest row of the table is the last candle handed to the
    strategies. *)
Lemma last_of_fetched (rows : list Candle) :
  last (rev (take 300 rows)) = head rows.
Proof.
  destruct rows as [| c rows]; [reflexivity |].
  change (take 300 (c :: rows)) with (c :: take 299 rows).
  simpl rev. rewrite last_snoc. reflexivity.
Qed.

End RunnerTraces.

(** X13.  Whatever the database holds and whether or not the run raises,
    [run_for_asset] only appends to the trace, and every signal it inserts
    has type BUY or HOLD, the timeframe 1D that was asked for, the id of
    the asset row and a strategy id that are both truthy, and the close
    and time of the newest candle of the table. *)
Theorem X13_inserted_signals_well_formed (db : Runner.Database)
    (symbol timeframe : string) (trace : list Runner.event) :
  exists events,
    snd (Runner.run_for_asset symbol timeframe db trace) = trace ++ events
    /\ forall p, In p (Runner.inserted events) ->
       (Runner.signal_type p = "BUY" \/ Runner.signal_type p = "HOLD")
       /\ Runner.timeframe p = "1D" /\ timeframe = "1D"
       /\ head (Runner.asset_ids db symbol) = Some (Runner.asset_id p)
       /\ truthy (Runner.asset_id p) = true
       /\ truthy (Runner.strategy_id p) = true
       /\ exists newest,
            head (Runner.candles_desc db symbol timeframe) = Some newest
            /\ Runner.price p = close newest
            /\ Runner.generated_at p = time newest.
Proof.
  set (P := fun e =>
    match e with
    | Runner.InsertSignal p =>
        (Runner.signal_type p = "BUY" \/ Runner.signal_type p = "HOLD")
        /\ Runner.timeframe p = "1D" /\ timeframe = "1D"
        /\ head (Runner.asset_ids db symbol) = Some (Runner.asset_id p)
        /\ truthy (Runner.asset_id p) = true
        /\ truthy (Runner.strategy_id p) = true
        /\ exists newest,
             head (Runner.candles_desc db symbol timeframe) = Some newest
             /\ Runner.price p = close newest
             /\ Runner.generated_at p = time newest
    | _ => True
    end).
  assert (H : Runner.emits db P (Runner.run_for_asset symbol timeframe)).
  { unfold Runner.run_for_asset. apply emits_bind.
    { eapply emits_one; [intros; reflexivity | exact I]. }
    intros candles tr tr' Hfetch. injection Hfetch as Hcandles _.
    destruct candles as [| c0 cs]; [apply emits_ret |].
    apply emits_bind.
    { eapply emits_one; [intros; reflexivity | exact I]. }
    intros asset tr1 tr1' Hasset. injection Hasset as Hasset _.
    rewrite first_id_take in Hasset.
    destruct (truthy asset) eqn:Etruthy; [| apply emits_ret]. simpl negb. cbv iota.
    apply emits_bind.
    { intros tr2. exists []. split; [symmetry; apply app_nil_r | constructor]. }
    intros lc tr2 tr2' Hlast. injection Hlast as Hlast _.
    unfold last_item in Hlast. rewrite <- Hcandles, last_of_fetched in Hlast.
    destruct (head (Runner.candles_desc db symbol timeframe)) as [newest |] eqn:Ehead;
      [| discriminate].
    injection Hlast as <-.
    assert (Hid : head (Runner.asset_ids db symbol) = Some asset).
    { unfold Runner.first_id in Hasset.
      destruct (head (Runner.asset_ids db symbol)) as [id |]; simpl in Hasset.
      - subst id. reflexivity.
      - subst asset. discriminate. }
    apply emits_for_each. intros strat _. unfold Runner.run_strategy.
    rewrite timeframe_of_daily.
    destruct (String.eqb "1D" timeframe) eqn:Etf; [| apply emits_ret].
    apply String.eqb_eq in Etf. simpl negb. cbv iota.
    destruct (String.eqb (Runner.code_of strat) ""); [apply emits_ret |].
    apply emits_bind.
    { eapply emits_one; [intros; reflexivity | exact I]. }
    intros sid tr3 tr3' Hsid.
    destruct (truthy sid) eqn:Esid; [| apply emits_ret]. simpl negb. cbv iota.
    apply emits_bind; [apply emits_call; intros; exact I |].
    intros res tr4 tr4' _. cbv zeta.
    eapply emits_one; [intros; reflexivity |]. simpl.
    split; [apply normalize_signal_type_cases |].
    repeat split; try assumption; try (symmetry; assumption).
    exists newest. repeat split. }
  destruct (H trace) as (events & Hev & Hall). exists events.
  split; [exact Hev |]. intros p Hp.
  rewrite Forall_forall in Hall.
  assert (Hin : Runner.InsertSignal p ∈ events).
  { unfold Runner.inserted in Hp. apply list_elem_of_In in Hp.
    apply list_elem_of_omap in Hp as (e & He & Hsome).
    destruct e; try discriminate. injection Hsome as ->. exact He. }
  exact (Hall _ Hin).
Qed.

Section RunnerRuns.

Import Runner.

Variables (db : Database) (symbol : string).

Lemma fetched_nonempty (timeframe : string) :
  candles_desc db symbol timeframe <> [] ->
  exists newest, head (candles_desc db symbol timeframe) = Some newest
                 /\ last_item (rev (take 300 (candles_desc db symbol timeframe)))
                    = Ret newest
                 /\ rev (take 300 (candles_desc db symbol timeframe)) <> [].
Proof.
  intros Hne. destruct (candles_desc db symbol timeframe) as [| c rows] eqn:E;
    [congruence |].
  exists c. split; [reflexivity |]. split.
  - unfold last_item. rewrite last_of_fetched. reflexivity.
  - change (take 300 (c :: rows)) with (c :: take 299 rows). simpl.
    intros H. apply (f_equal length) in H. rewrite length_app in H. simpl in H. lia.
Qed.

(** The strategies skip a timeframe that is not theirs. *)
Lemma for_each_other_timeframe (timeframe : string) (candles : list Candle)
    (asset : value) (lc : Candle) (strats : list Combination) (trace : list event) :
  timeframe <> "1D" ->
  for_each strats (run_strategy symbol timeframe candles asset lc) db trace
  = (Ret tt, trace).
Proof.
  intros Htf. induction strats as [| c strats IH]; [reflexivity |].
  simpl. rewrite run_R_bind. unfold run_strategy at 1.
  rewrite timeframe_of_daily.
  assert (String.eqb "1D" timeframe = false) as ->
    by (apply String.eqb_neq; congruence).
  simpl. exact IH.
Qed.

End RunnerRuns.

(** X14.  [run_for_asset] stops early, without looking up a strategy,
    querying the news or inserting anything: after the candle query when
    the table has no candle for the symbol, and after the asset lookup
    when the asset is unknown (or its id is falsy) or when the timeframe is
    not 1D. *)
Theorem X14_run_for_asset_stops_early (db : Runner.Database)
    (symbol timeframe : string) (trace : list Runner.event) :
  (Runner.candles_desc db symbol timeframe = [] ->
   Runner.run_for_asset symbol timeframe db trace
   = (Ret tt, trace ++ [Runner.SelectCandles symbol timeframe]))
  /\ (Runner.candles_desc db symbol timeframe <> [] ->
      truthy (Runner.first_id (Runner.asset_ids db symbol)) = false
      \/ timeframe <> "1D" ->
      Runner.run_for_asset symbol timeframe db trace
      = (Ret tt, trace ++ [Runner.SelectCandles symbol timeframe;
                           Runner.SelectAsset symbol])).
Proof.
  split.
  - intros Hnone. unfold Runner.run_for_asset.
    rewrite run_R_bind. unfold Runner.fetch_candles_from_db. rewrite Hnone.
    reflexivity.
  - intros Hsome Hstop.
    destruct (fetched_nonempty db symbol timeframe Hsome) as (newest & _ & Hlast & Hne).
    unfold Runner.run_for_asset.
    rewrite run_R_bind. unfold Runner.fetch_candles_from_db. cbv zeta.
    destruct (rev (take 300 (Runner.candles_desc db symbol timeframe)))
      as [| c0 cs] eqn:Ec; [congruence |].
    cbv beta iota. rewrite run_R_bind. unfold Runner.get_asset_id. cbv zeta.
    rewrite first_id_take, <- app_assoc. simpl app. cbv beta iota.
    destruct (truthy (Runner.first_id (Runner.asset_ids db symbol))) eqn:Easset.
    + destruct Hstop as [Hf | Htf]; [discriminate |].
      change (negb true) with false. cbv iota.
      rewrite run_R_bind. unfold Runner.eval.
      rewrite Hlast. cbv beta iota zeta.
      apply for_each_other_timeframe. exact Htf.
    + reflexivity.
Qed.

Lemma X14_witness :
  Runner.run_for_asset "AAPL" "4H" (market Scenario.bullish) []
  = (Ret tt, [] ++ [Runner.SelectCandles "AAPL" "4H"; Runner.SelectAsset "AAPL"]).
Proof.
  apply (proj2 (X14_run_for_asset_stops_early (market Scenario.bullish) "AAPL" "4H" [])).
  - vm_compute. discriminate.
  - right. discriminate.
Defined.

Section RunnerFullRun.

Import Runner.

(** A combination that returns has made no query when the history is too
    short, and exactly the news strategy's query otherwise. *)
Lemma combination_log (c : Combination) (symbol : string) (candles : list Candle)
    (env : Env) (log log' : list query) (r : StrategyResult) :
  generate_signal (Combined c) symbol candles env log = (Ret r, log') ->
  log' = log ++ (if (Spec.min_history c <=? length candles)%nat
                 then [news_query env (news_of c) symbol] else []).
Proof.
  intros Hrun.
  destruct (Nat.lt_ge_cases (length candles) (Spec.min_history c)) as [Hs | Hl].
  - rewrite (combination_short c symbol candles env log Hs) in Hrun.
    injection Hrun as _ <-.
    assert ((Spec.min_history c <=? length candles)%nat = false) as ->
      by (apply Nat.leb_gt; exact Hs).
    symmetry. apply app_nil_r.
  - destruct (combination_inversion c symbol candles env log log' r Hl Hrun)
      as (b & nr & avg & _ & Hnews & _).
    apply news_inversion in Hnews as [-> _].
    assert ((Spec.min_history c <=? length candles)%nat = true) as ->
      by (apply Nat.leb_le; exact Hl).
    reflexivity.
Qed.

Variables (db : Database) (symbol : string) (candles : list Candle)
          (asset : value) (last_candle : Candle).

Lemma code_of_nonempty (c : Combination) : String.eqb (code_of c) "" = false.
Proof. destruct c; reflexivity. Qed.

(** One pass of the loop for a strategy that is known to the database. *)
Lemma run_strategy_known (c : Combination) (trace : list event) :
  Spec.well_configured c = true ->
  truthy (first_id (strategy_ids db (code_of c))) = true ->
  forallb (processable (world db)) (fetched (world db) (news_of c) symbol) = true ->
  exists p,
    run_strategy symbol "1D" candles asset last_candle c db trace
    = (Ret tt,
       trace ++ SelectStrategy (code_of c)
             :: map SelectNews
                  (if (Spec.min_history c <=? length candles)%nat
                   then [news_query (world db) (news_of c) symbol] else [])
             ++ [InsertSignal p])
    /\ strategy_id p = first_id (strategy_ids db (code_of c))
    /\ asset_id p = asset.
Proof.
  intros Hcfg Hid Hread.
  destruct (combination_returns c symbol candles (world db) [] Hcfg Hread)
    as (r & log' & Hrun).
  pose proof (combination_log c symbol candles (world db) [] log' r Hrun) as Hlog.
  simpl app in Hlog. subst log'.
  unfold run_strategy. rewrite timeframe_of_daily, String.eqb_refl.
  change (negb true) with false. cbv iota zeta.
  rewrite code_of_nonempty. cbv iota. rewrite run_R_bind.
  unfold get_strategy_id. cbv zeta. rewrite first_id_take. cbv beta iota.
  rewrite Hid. change (negb true) with false. cbv iota.
  rewrite run_R_bind. unfold call. rewrite Hrun. cbv beta iota zeta.
  unfold insert_signal. eexists.
  split; [rewrite <- !app_assoc; reflexivity | split; reflexivity].
Qed.

Lemma for_each_known (strats : list Combination) :
  Forall (fun c =>
            Spec.well_configured c = true
            /\ truthy (first_id (strategy_ids db (code_of c))) = true
            /\ forallb (processable (world db)) (fetched (world db) (news_of c) symbol)
               = true) strats ->
  forall trace,
  exists events,
    for_each strats (run_strategy symbol "1D" candles asset last_candle) db trace
    = (Ret tt, trace ++ events)
    /\ map strategy_id (inserted events)
       = map (fun c => first_id (strategy_ids db (code_of c))) strats
    /\ Forall (fun p => asset_id p = asset) (inserted events)
    /\ news_queries events
       = flat_map (fun c => if (Spec.min_history c <=? length candles)%nat
                            then [news_query (world db) (news_of c) symbol]
                            else []) strats.
Proof.
  induction 1 as [| c strats (Hcfg & Hid & Hread) _ IH]; intros trace.
  - exists []. simpl. rewrite app_nil_r. repeat split. constructor.
  - destruct (run_strategy_known c trace Hcfg Hid Hread) as (p & Hstep & Hsid & Haid).
    set (step := SelectStrategy (code_of c)
                 :: map SelectNews
                      (if (Spec.min_history c <=? length candles)%nat
                       then [news_query (world db) (news_of c) symbol] else [])
                 ++ [InsertSignal p]) in *.
    destruct (IH (trace ++ step)) as (events & Hrest & Hids & Hassets & Hnews).
    exists (step ++ events).
    cbn [for_each]. rewrite run_R_bind, Hstep, Hrest, app_assoc.
    split; [reflexivity |].
    assert (Hins : inserted step = [p]).
    { subst step. unfold inserted.
      destruct (_ <=? _)%nat; reflexivity. }
    assert (Hq : news_queries step
                 = (if (Spec.min_history c <=? length candles)%nat
                    then [news_query (world db) (news_of c) symbol] else [])).
    { subst step. unfold news_queries.
      destruct (_ <=? _)%nat; reflexivity. }
    unfold inserted, news_queries in *. rewrite !omap_app, Hins, Hq.
    split; [| split].
    + simpl. rewrite Hsid, Hids. reflexivity.
    + constructor; [exact Haid | exact Hassets].
    + simpl. rewrite Hnews. reflexivity.
Qed.

End RunnerFullRun.

(** X15.  When the table has candles for the symbol, the asset and the
    three strategies are known, and the news table holds, whatever the
    bound of the query, only rows the loop can process, a 1D run returns
    without raising and inserts exactly one signal per registered
    strategy, in the order of the registry.  Each strategy with enough
    candles (15, 21 and 220 of the at most 300 fetched) queries the news
    table once, for the symbol of the run: the same news is fetched up to
    three times. *)
Theorem X15_full_run (db : Runner.Database) (symbol : string)
    (trace : list Runner.event) :
  Runner.candles_desc db symbol "1D" <> [] ->
  truthy (Runner.first_id (Runner.asset_ids db symbol)) = true ->
  Forall (fun c => truthy (Runner.first_id
                             (Runner.strategy_ids db (Runner.code_of c))) = true)
         build_combined_strategies ->
  (forall since,
     forallb (processable (Runner.world db))
             (news_articles (Runner.world db) symbol since) = true) ->
  exists events,
    Runner.run_for_asset symbol "1D" db trace = (Ret tt, trace ++ events)
    /\ map Runner.strategy_id (Runner.inserted events)
       = map (fun c => Runner.first_id (Runner.strategy_ids db (Runner.code_of c)))
             build_combined_strategies
    /\ length (Runner.inserted events) = 3%nat
    /\ map q_symbol (Runner.news_queries events)
       = (if (15 <=? length (take 300 (Runner.candles_desc db symbol "1D")))%nat
          then [symbol] else [])
         ++ (if (21 <=? length (take 300 (Runner.candles_desc db symbol "1D")))%nat
             then [symbol] else [])
         ++ (if (220 <=? length (take 300 (Runner.candles_desc db symbol "1D")))%nat
             then [symbol] else []).
Proof.
  intros Hsome Hasset Hids Hread.
  destruct (fetched_nonempty db symbol "1D" Hsome) as (newest & _ & Hlast & Hne).
  set (candles := rev (take 300 (Runner.candles_desc db symbol "1D"))) in *.
  destruct (for_each_known db symbol candles
              (Runner.first_id (Runner.asset_ids db symbol)) newest
              build_combined_strategies) with
    (trace := trace ++ [Runner.SelectCandles symbol "1D"; Runner.SelectAsset symbol])
    as (events & Hrun & Hsids & _ & Hnews).
  { rewrite Forall_forall in Hids. apply Forall_forall. intros c Hc.
    split; [| split].
    - apply list_elem_of_In in Hc.
      destruct Hc as [<- | [<- | [<- | []]]]; reflexivity.
    - apply Hids, Hc.
    - apply Hread. }
  exists ([Runner.SelectCandles symbol "1D"; Runner.SelectAsset symbol] ++ events).
  split; [| split; [| split]].
  - unfold Runner.run_for_asset.
    rewrite run_R_bind. unfold Runner.fetch_candles_from_db. cbv zeta. fold candles.
    destruct candles as [| c0 cs] eqn:Ec; [congruence |].
    cbv beta iota. rewrite run_R_bind. unfold Runner.get_asset_id. cbv zeta.
    rewrite first_id_take, <- app_assoc. simpl app. cbv beta iota.
    rewrite Hasset. change (negb true) with false. cbv iota.
    rewrite run_R_bind. unfold Runner.eval. rewrite Hlast. cbv beta iota zeta.
    rewrite Hrun, <- app_assoc. reflexivity.
  - unfold Runner.inserted in *. rewrite omap_app. simpl. exact Hsids.
  - unfold Runner.inserted in *. rewrite omap_app. simpl.
    rewrite <- (length_map Runner.strategy_id), Hsids. reflexivity.
  - unfold Runner.news_queries in *. rewrite omap_app, Hnews.
    subst candles. rewrite length_rev.
    set (n := length (take 300 (Runner.candles_desc db symbol "1D"))).
    cbn -[Nat.leb].
    destruct (15 <=? n)%nat, (21 <=? n)%nat, (220 <=? n)%nat; reflexivity.
Qed.

Lemma X15_witness :
  exists events,
    Runner.run_for_asset "AAPL" "1D" (market Scenario.bullish) [] = (Ret tt, [] ++ events)
    /\ map Runner.strategy_id (Runner.inserted events)
       = map (fun c => Runner.first_id
                         (Runner.strategy_ids (market Scenario.bullish) (Runner.code_of c)))
             build_combined_strategies
    /\ length (Runner.inserted events) = 3%nat
    /\ map q_symbol (Runner.news_queries events)
       = (if (15 <=? length (take 300 (Runner.candles_desc (market Scenario.bullish) "AAPL" "1D")))%nat
          then ["AAPL"] else [])
         ++ (if (21 <=? length (take 300 (Runner.candles_desc (market Scenario.bullish) "AAPL" "1D")))%nat
             then ["AAPL"] else [])
         ++ (if (220 <=? length (take 300 (Runner.candles_desc (market Scenario.bullish) "AAPL" "1D")))%nat
             then ["AAPL"] else []).
Proof.
  apply (X15_full_run (market Scenario.bullish) "AAPL" []).
  - vm_compute. discriminate.
  - reflexivity.
  - repeat constructor.
  - intros since. vm_compute. reflexivity.
Defined.

(** X16.  A strategy that raises aborts the whole run.  With at least 15
    fetched candles, a known asset and a known first strategy, a failure of
    the news strategy is raised by [run_for_universe] itself: nothing is
    inserted, and neither the remaining strategies nor the symbols after
    the failing one are touched. *)
Theorem X16_failure_aborts_the_universe (db : Runner.Database) (symbol : string)
    (others : list string) (trace : list Runner.event) (e : exn)
    (queries : list query) :
  (15 <= length (take 300 (Runner.candles_desc db symbol "1D")))%nat ->
  truthy (Runner.first_id (Runner.asset_ids db symbol)) = true ->
  truthy (Runner.first_id (Runner.strategy_ids db NewsRSICombo.code)) = true ->
  NewsSentimentStrategy.generate_signal NewsSentimentStrategy.default symbol
    (rev (take 300 (Runner.candles_desc db symbol "1D"))) (Runner.world db) []
  = (Raise e, queries) ->
  Runner.run_for_universe (symbol :: others) db trace
  = (Raise e,
     trace ++ [Runner.SelectCandles symbol "1D"; Runner.SelectAsset symbol;
               Runner.SelectStrategy NewsRSICombo.code]
           ++ map Runner.SelectNews queries)
  /\ Runner.inserted ([Runner.SelectCandles symbol "1D"; Runner.SelectAsset symbol;
                       Runner.SelectStrategy NewsRSICombo.code]
                      ++ map Runner.SelectNews queries) = [].
Proof.
  intros Hlen Hasset Hsid Hnews.
  assert (Hsome : Runner.candles_desc db symbol "1D" <> []).
  { intros E. rewrite E in Hlen. simpl in Hlen. lia. }
  destruct (fetched_nonempty db symbol "1D" Hsome) as (newest & _ & Hlast & Hne).
  set (candles := rev (take 300 (Runner.candles_desc db symbol "1D"))) in *.
  assert (Hcall :
    generate_signal (Combined (NewsRSI {| NewsRSICombo.news_strategy := NewsSentimentStrategy.default;
                                          NewsRSICombo.rsi_period := 14;
                                          NewsRSICombo.oversold := 30.0 |}))
      symbol candles (Runner.world db) [] = (Raise e, queries)).
  { eapply combination_raise_news; [| reflexivity | exact Hnews].
    subst candles. rewrite length_rev. simpl. lia. }
  split.
  - unfold Runner.run_for_universe. cbn [Runner.for_each]. rewrite run_R_bind.
    assert (Hrun : Runner.run_for_asset symbol "1D" db trace
                   = (Raise e,
                      trace ++ [Runner.SelectCandles symbol "1D"; Runner.SelectAsset symbol;
                                Runner.SelectStrategy NewsRSICombo.code]
                            ++ map Runner.SelectNews queries)).
    { unfold Runner.run_for_asset.
      rewrite run_R_bind. unfold Runner.fetch_candles_from_db. cbv zeta. fold candles.
      destruct candles as [| c0 cs] eqn:Ec; [congruence |].
      cbv beta iota. rewrite run_R_bind. unfold Runner.get_asset_id. cbv zeta.
      rewrite first_id_take, <- app_assoc. simpl app. cbv beta iota.
      rewrite Hasset. change (negb true) with false. cbv iota.
      rewrite run_R_bind. unfold Runner.eval. rewrite Hlast. cbv beta iota zeta.
      unfold build_combined_strategies. cbv zeta. cbn [Runner.for_each].
      rewrite run_R_bind. unfold Runner.run_strategy at 1.
      cbn [Runner.timeframe_of Runner.code_of].
      rewrite String.eqb_refl. change (negb true) with false. cbv iota zeta.
      change (String.eqb NewsRSICombo.code "") with false. cbv iota.
      rewrite run_R_bind. unfold Runner.get_strategy_id. cbv zeta.
      rewrite first_id_take. cbv beta iota. rewrite Hsid.
      change (negb true) with false. cbv iota.
      rewrite run_R_bind. unfold Runner.call. rewrite Hcall. cbv beta iota.
      rewrite <- !app_assoc. reflexivity. }
    rewrite Hrun. reflexivity.
  - unfold Runner.inserted. rewrite omap_app. simpl.
    clear. induction queries as [| q qs IH]; [reflexivity | exact IH].
Qed.

Lemma X16_witness :
  Runner.run_for_universe ["AAPL"; "MSFT"] (market Scenario.ahead) []
  = (Raise ZeroDivisionError,
     [] ++ [Runner.SelectCandles "AAPL" "1D"; Runner.SelectAsset "AAPL";
            Runner.SelectStrategy NewsRSICombo.code]
        ++ map Runner.SelectNews Scenario.the_query)
  /\ Runner.inserted ([Runner.SelectCandles "AAPL" "1D"; Runner.SelectAsset "AAPL";
                       Runner.SelectStrategy NewsRSICombo.code]
                      ++ map Runner.SelectNews Scenario.the_query) = [].
Proof.
  apply (X16_failure_aborts_the_universe (market Scenario.ahead) "AAPL" ["MSFT"] []
           ZeroDivisionError Scenario.the_query).
  - vm_compute. lia.
  - reflexivity.
  - reflexivity.
  - vm_compute. reflexivity.
Defined.

(** ** [fetch_candles_from_db] *)

Section Chronology.

Variables (A : Type) (R : A -> A -> Prop).

Lemma sorted_take (n : nat) (l : list A) : Sorted R l -> Sorted R (take n l).
Proof.
  revert n. induction l as [| a l IH]; intros n H; [destruct n; constructor |].
  destruct n as [| n]; [constructor |]. simpl.
  apply Sorted_inv in H as [Hl Hhd]. constructor; [apply IH, Hl |].
  destruct l as [| b l]; [destruct n; constructor |].
  destruct n as [| n]; [constructor |]. simpl.
  inversion Hhd; subst. constructor. assumption.
Qed.

Lemma sorted_snoc (before : A -> A -> Prop) (l : list A) (a : A) :
  Sorted before l -> (forall b, last l = Some b -> before b a) ->
  Sorted before (l ++ [a]).
Proof.
  induction l as [| x l IH]; intros Hl Hlast; simpl.
  - repeat constructor.
  - apply Sorted_inv in Hl as [Hl Hhd]. constructor.
    + apply IH; [exact Hl |]. intros b Hb. apply Hlast.
      destruct l; [discriminate | exact Hb].
    + destruct l as [| y l]; simpl.
      * constructor. apply Hlast. reflexivity.
      * inversion Hhd; subst. constructor. assumption.
Qed.

Lemma last_rev (l : list A) : last (rev l) = head l.
Proof. destruct l as [| a l]; [reflexivity |]. simpl. apply last_snoc. Qed.

Lemma sorted_rev (l : list A) : Sorted R l -> Sorted (flip R) (rev l).
Proof.
  induction l as [| a l IH]; intros H; simpl; [constructor |].
  apply Sorted_inv in H as [Hl Hhd].
  apply sorted_snoc; [apply IH, Hl |].
  intros b Hb. rewrite last_rev in Hb. unfold flip.
  destruct l as [| y l]; [discriminate |]. injection Hb as <-.
  inversion Hhd; subst. assumption.
Qed.

End Chronology.

(** X17.  [fetch_candles_from_db] makes one query and returns at most 300
    candles, namely the 300 newest rows, oldest first: the candle handed
    over last is the newest row of the table, and rows that come newest
    first come out in chronological order. *)
Theorem X17_fetch_candles_chronological (db : Runner.Database)
    (symbol timeframe : string) (trace : list Runner.event)
    (newer : Candle -> Candle -> Prop) :
  exists candles,
    Runner.fetch_candles_from_db symbol timeframe db trace
    = (Ret candles, trace ++ [Runner.SelectCandles symbol timeframe])
    /\ length candles
       = Nat.min 300 (length (Runner.candles_desc db symbol timeframe))
    /\ candles ≡ₚ take 300 (Runner.candles_desc db symbol timeframe)
    /\ last candles = head (Runner.candles_desc db symbol timeframe)
    /\ (Sorted newer (Runner.candles_desc db symbol timeframe) ->
        Sorted (flip newer) candles).
Proof.
  eexists. split; [reflexivity |]. cbv zeta.
  split; [rewrite length_rev, length_take; reflexivity |].
  split; [symmetry; apply Permutation_rev |].
  split; [apply last_of_fetched |].
  intros Hsorted. apply sorted_rev, sorted_take, Hsorted.
Qed.

(** ** Falsy impacts and missing news *)

(** X19.  A falsy impact cannot silence an article: when the
    [impact_score] of a row the loop can process is absent, [None],
    [False], a zero, [""], [[]] or [{}], the article is weighed with
    impact 0.5, so its weight is at least 0.05. *)
Theorem X19_zero_impact_counts_as_default (env : Env) (art : gmap string value) :
  processable env art = true ->
  truthy (get art "impact_score") = false ->
  read_impact env art = Ret 0.5
  /\ exists s w,
       NewsSentimentStrategy.article_terms env (Aware (utcnow env)) art = Ret (s, w)
       /\ 0.05 <= w.
Proof.
  intros Hp Hfalsy.
  destruct (article_terms_processable env art Hp)
    as (h & s & i & _ & _ & _ & Ei & _ & Di & Et).
  rewrite (Di Hfalsy) in Ei, Et.
  split; [exact Ei |].
  eexists _, _. split; [exact Et |].
  pose proof (max2_lower 0.1 (1.0 / (1.0 + h / 8.0))) as [Hm _]. lra.
Qed.

Lemma X19_witness :
  read_impact (Scenario.world [])
    {[ "sentiment_score" := VNum 0.5; "impact_score" := VBool false ]} = Ret 0.5
  /\ exists s w,
       NewsSentimentStrategy.article_terms (Scenario.world [])
         (Aware (utcnow (Scenario.world [])))
         {[ "sentiment_score" := VNum 0.5; "impact_score" := VBool false ]}
       = Ret (s, w)
       /\ 0.05 <= w.
Proof.
  apply (X19_zero_impact_counts_as_default (Scenario.world [])
           {[ "sentiment_score" := VNum 0.5; "impact_score" := VBool false ]}).
  - vm_compute. reflexivity.
  - vm_compute. reflexivity.
Defined.


